(** * XRotor: the Python facade over the native rotor solver

    A shallow embedding of [xrotor/xrotor.py].  The wrapper computes
    nothing itself: it marshals values through [ctypes], calls entry points
    of a shared library loaded from a private temporary copy, and turns the
    answers into Python values.  The embedding therefore has three layers:

    - the [ctypes] / [numpy] values that cross the boundary;
    - the methods of [class XRotor], written as programs ([prog]) whose only
      effects are calls into the library and Python exceptions;
    - an operating-system [World] (files, loaded libraries) over which
      [__init__], [__del__] and the execution of a method are state
      transformers. *)

From Stdlib Require Import ZArith List Lia.
From Stdlib Require Import Floats.PrimFloat Floats.SpecFloat Floats.FloatOps.
From Stdlib Require Import Floats.FloatAxioms.
From Stdlib Require Import Strings.Ascii.
From stdpp Require Import gmap strings list fin_maps.

Local Open Scope Z_scope.

(** ** Python exceptions and results *)

Inductive exn : Type :=
| ValueError (msg : string)
| AttributeError
| IndexError
| OSError
| FileNotFoundError
| PermissionError
| SameFileError
| ArgumentError.  (* ctypes.ArgumentError *)

(** The exceptions that are [OSError] or a subclass of it. *)
Definition is_OSError (e : exn) : bool :=
  match e with
  | OSError | FileNotFoundError | PermissionError | SameFileError => true
  | _ => false
  end.

Inductive result (A : Type) : Type :=
| Returned (a : A)
| Raised (e : exn)
| Crashed.  (* a call through a library handle that is no longer loaded *)

Arguments Returned {A} a.
Arguments Raised {A} e.
Arguments Crashed {A}.

(** ** ctypes scalars *)

(** [c_float(x).value]: a Python float (binary64) rounded to binary32, to
    nearest even, and read back as a Python float. *)
Definition round_single (x : float) : float :=
  match Prim2SF x with
  | S754_finite s m e => SF2Prim (binary_round 24 128 s m e)
  | _ => x
  end.

(** [c_int(v).value]: ctypes does no overflow check, the value wraps to a
    signed 32-bit integer. *)
Definition wrap_int (v : Z) : Z := (v + 2 ^ 31) mod 2 ^ 32 - 2 ^ 31.

Inductive cdata : Type :=
| C_float (v : float)
| C_int (n : Z)
| C_bool (b : bool).

Definition c_float (x : float) : cdata := C_float (round_single x).
Definition c_int (v : Z) : cdata := C_int (wrap_int v).
Definition c_bool (b : bool) : cdata := C_bool b.


(** ** numpy arrays *)

Inductive dtype : Type := float32 | float64.
Inductive order : Type := C_order | F_order.

(** An array is its element type, its shape, the order of its buffer and the
    buffer itself, element by element as it lies in memory. *)
Record ndarray : Type := {
  nd_dtype : dtype;
  nd_shape : list nat;
  nd_order : order;
  nd_mem : list float
}.

(** Offset of a multi-index in a column-major buffer: the first index runs
    fastest. *)
Fixpoint offsetF (shape idx : list nat) : nat :=
  match shape, idx with
  | d :: shape', i :: idx' => (i + d * offsetF shape' idx')%nat
  | _, _ => 0%nat
  end.

(** Offset in a row-major buffer: the last index runs fastest. *)
Definition offsetC (shape idx : list nat) : nat :=
  offsetF (rev shape) (rev idx).

Definition nd_offset (a : ndarray) (idx : list nat) : nat :=
  match nd_order a with
  | C_order => offsetC (nd_shape a) idx
  | F_order => offsetF (nd_shape a) idx
  end.

(** [a[idx]] *)
Definition nd_get (a : ndarray) (idx : list nat) : float :=
  nth (nd_offset a idx) (nd_mem a) 0%float.

(** All multi-indices of a shape, enumerated in column-major order. *)
Fixpoint indicesF (shape : list nat) : list (list nat) :=
  match shape with
  | [] => [[]]
  | d :: shape' =>
      flat_map (fun rest => map (fun i => i :: rest) (seq 0 d)) (indicesF shape')
  end.

(** [np.asfortranarray(a)]: [a] itself when its buffer is already
    column-major, otherwise a copy laid out column-major.  No [dtype] is
    given in the source, so the element type is the one of [a]. *)
Definition asfortranarray (a : ndarray) : ndarray :=
  match nd_order a with
  | F_order => a
  | C_order =>
      {| nd_dtype := nd_dtype a;
         nd_shape := nd_shape a;
         nd_order := F_order;
         nd_mem := map (nd_get a) (indicesF (nd_shape a)) |}
  end.

(** [np.zeros(n, dtype=c_float, order='F')] for a non-negative [n]. *)
Definition zeros (n : nat) : ndarray :=
  {| nd_dtype := float32;
     nd_shape := [n];
     nd_order := F_order;
     nd_mem := repeat 0%float n |}.

(** ** Arguments of a foreign call *)

Inductive carg : Type :=
| byref (c : cdata)            (* byref(c_xxx(v)) *)
| data_as_fptr (a : ndarray)   (* a.ctypes.data_as(POINTER(c_float)) *)
| null.                        (* None *)

(** ** Entry points of the native library *)

Module Lib.

(** One constructor per entry point the wrapper calls, with the arguments
    as the wrapper builds them. *)
Inductive call : Type :=
| init
| get_print
| set_print (a : carg)
| get_max_iter
| set_max_iter (a : carg)
| set_case (args : list carg)
| get_performance
| get_number_of_stations
| get_station_conditions (n xi re : carg)
| get_rms
| operate (mode value selector rpm : carg)
| get_blade_angle_change
| show.

(** The five output cells of [get_performance]. *)
Record perf_cells : Type := {
  cell_rpm : float;
  cell_thrust : float;
  cell_torque : float;
  cell_power : float;
  cell_efficiency : float
}.

(** What a call into a caller-sized buffer can do: overwrite elements. *)
Definition writes : Type := nat -> option float.

(** What the wrapper reads back: the value converted by [restype]
    ([c_int] when none is set), or the contents of the output cells. *)
Definition ret (c : call) : Type :=
  match c with
  | get_print => bool
  | get_performance => perf_cells
  | get_station_conditions _ _ _ => (writes * writes)%type
  | get_rms | operate _ _ _ _ | get_blade_angle_change => float
  | _ => Z
  end.

End Lib.

(** A native library: the state of a freshly loaded module and the effect of
    each entry point on it. *)
Class XRotorLib (S : Type) : Type := {
  lib_loaded : S;
  lib_call : forall c : Lib.call, S -> Lib.ret c * S
}.

(** ** Programs: library calls and exceptions *)

Inductive prog (A : Type) : Type :=
| Ret (a : A)
| Raise (e : exn)
| Call (c : Lib.call) (k : Lib.ret c -> prog A).

Arguments Ret {A} a.
Arguments Raise {A} e.
Arguments Call {A} c k.

Fixpoint bind {A B : Type} (p : prog A) (f : A -> prog B) : prog B :=
  match p with
  | Ret a => f a
  | Raise e => Raise e
  | Call c k => Call c (fun r => bind (k r) f)
  end.

(** [self._lib.f(args)] *)
Definition call (c : Lib.call) : prog (Lib.ret c) := Call c Ret.

Declare Scope prog_scope.
Delimit Scope prog_scope with prog.
Notation "x <- p ;; q" := (bind p (fun x => q))
  (at level 100, p at next level, right associativity) : prog_scope.
Notation "p ;;; q" := (bind p (fun _ => q))
  (at level 100, right associativity) : prog_scope.
Local Open Scope prog_scope.

(** Running a program against a loaded library: the result, the library's
    state afterwards and the calls made, in order. *)
Fixpoint run {S : Type} {L : XRotorLib S} {A : Type} (p : prog A) (st : S)
  : result A * S * list Lib.call :=
  match p with
  | Ret a => (Returned a, st, [])
  | Raise e => (Raised e, st, [])
  | Call c k =>
      let '(r, st1) := lib_call c st in
      let '(res, st2, tr) := run (k r) st1 in
      (res, st2, c :: tr)
  end.

(** ** The methods of [XRotor] that only talk to the library *)

Module XRotor.

Definition not_None {A : Type} (x : option A) : bool :=
  match x with Some _ => true | None => false end.

(** What [operate] returns: [rms], or the pair [(rms, blade_angle_change)]. *)
Inductive operate_result : Type :=
| Rms (rms : float)
| RmsAngle (rms blade_angle_change : float).

Definition operate (thrust torque power rpm : option float)
  : prog operate_result :=
  if not_None thrust && not_None torque && not_None power then
    Raise (ValueError "Thrust, torque, and power cannot be specified simultaneously.")
  else if not_None thrust && not_None torque then
    Raise (ValueError "Thrust and torque cannot be specified simultaneously.")
  else if not_None thrust && not_None power then
    Raise (ValueError "Thrust and power cannot be specified simultaneously.")
  else
    match thrust, torque, power, rpm with
    | Some thrust, _, _, Some rpm =>
        rms <- call (Lib.operate (byref (c_int 1)) (byref (c_float thrust))
                                 (byref (c_int 1)) (byref (c_float rpm)));;
        blade_angle_change <- call Lib.get_blade_angle_change;;
        Ret (RmsAngle rms blade_angle_change)
    | Some thrust, _, _, None =>
        rms <- call (Lib.operate (byref (c_int 1)) (byref (c_float thrust))
                                 (byref (c_int 2)) null);;
        Ret (Rms rms)
    | None, Some torque, _, Some rpm =>
        rms <- call (Lib.operate (byref (c_int 2)) (byref (c_float torque))
                                 (byref (c_int 1)) (byref (c_float rpm)));;
        blade_angle_change <- call Lib.get_blade_angle_change;;
        Ret (RmsAngle rms blade_angle_change)
    | None, Some torque, _, None =>
        rms <- call (Lib.operate (byref (c_int 2)) (byref (c_float torque))
                                 (byref (c_int 2)) null);;
        Ret (Rms rms)
    | None, None, Some power, Some rpm =>
        rms <- call (Lib.operate (byref (c_int 3)) (byref (c_float power))
                                 (byref (c_int 1)) (byref (c_float rpm)));;
        blade_angle_change <- call Lib.get_blade_angle_change;;
        Ret (RmsAngle rms blade_angle_change)
    | None, None, Some power, None =>
        rms <- call (Lib.operate (byref (c_int 3)) (byref (c_float power))
                                 (byref (c_int 2)) null);;
        Ret (Rms rms)
    | None, None, None, Some rpm =>
        rms <- call (Lib.operate (byref (c_int 4)) (byref (c_float rpm))
                                 null null);;
        Ret (Rms rms)
    | None, None, None, None =>
        Raise (ValueError "Neither thrust, torque, power, or rpm was provided.")
    end.

(** *** Scalar configuration *)

(** The [print] property and its setter. *)
Definition print : prog bool := call Lib.get_print.

Definition set_print (value : bool) : prog unit :=
  call (Lib.set_print (byref (c_bool value)));;; Ret tt.

(** The [max_iter] property and its setter. *)
Definition max_iter : prog Z := call Lib.get_max_iter.

Definition set_max_iter (value : Z) : prog unit :=
  call (Lib.set_max_iter (byref (c_int value)));;; Ret tt.

(** *** The run case *)

(** Modelled from the spec: [model.py], which declares [Case] and
    [Performance], is not part of the sources.  The records below have
    the attributes that [xrotor.py] reads, typed after the case
    descriptor of the specification: real scalars, an integer blade count
    and section and station counts, boolean solver flags, and the two
    flattened arrays, whose element type and layout are whatever the
    model built. *)
Record Conditions : Type := {
  rho : float; vso : float; rmu : float; alt : float;
  vel : float; adv : float
}.

Record Geometry : Type := {
  r_hub : float; r_tip : float; r_wake : float; rake : float;
  n_geom : Z
}.

Record Blade : Type := {
  geometry : Geometry;
  n_aero : Z;
  aerodata : ndarray;
  geomdata : ndarray
}.

Record Disk : Type := { n_blds : Z; blade : Blade }.

Record Settings : Type := { free : bool; duct : bool; wind : bool }.

Record Case : Type := {
  conditions : Conditions;
  disk : Disk;
  settings : Settings
}.

(** The eighteen arguments of the [set_case] call, in order. *)
Definition case_args (case : Case) : list carg :=
  [ byref (c_float (rho (conditions case)));
    byref (c_float (vso (conditions case)));
    byref (c_float (rmu (conditions case)));
    byref (c_float (alt (conditions case)));
    byref (c_float (vel (conditions case)));
    byref (c_float (adv (conditions case)));
    byref (c_float (r_hub (geometry (blade (disk case)))));
    byref (c_float (r_tip (geometry (blade (disk case)))));
    byref (c_float (r_wake (geometry (blade (disk case)))));
    byref (c_float (rake (geometry (blade (disk case)))));
    byref (c_int (n_blds (disk case)));
    byref (c_int (n_aero (blade (disk case))));
    byref (c_int (n_geom (geometry (blade (disk case)))));
    data_as_fptr (asfortranarray (aerodata (blade (disk case))));
    data_as_fptr (asfortranarray (geomdata (blade (disk case))));
    byref (c_bool (free (settings case)));
    byref (c_bool (duct (settings case)));
    byref (c_bool (wind (settings case))) ].

(** The library call of the [case] setter (the assignment to
    [self._case] is in [set_case] below, on the session object). *)
Definition push_case (case : Case) : prog unit :=
  call (Lib.set_case (case_args case));;; Ret tt.

(** *** Results *)

(** Modelled from the spec: [Performance] of the missing [model.py], five
    [c_float] cells that [get_performance] fills by reference. *)
Record Performance : Type := {
  _rpm : float; _thrust : float; _torque : float;
  _power : float; _efficiency : float
}.

Definition performance : prog Performance :=
  cells <- call Lib.get_performance;;
  Ret {| _rpm := Lib.cell_rpm cells;
         _thrust := Lib.cell_thrust cells;
         _torque := Lib.cell_torque cells;
         _power := Lib.cell_power cells;
         _efficiency := Lib.cell_efficiency cells |}.

(** A buffer after the library wrote into it: the elements it has are the
    ones it had, overwritten where the library stored a value. *)
Definition filled (a : ndarray) (w : Lib.writes) : ndarray :=
  {| nd_dtype := nd_dtype a;
     nd_shape := nd_shape a;
     nd_order := nd_order a;
     nd_mem := imap (fun i old => default old (w i)) (nd_mem a) |}.

(** [np.zeros] refuses a negative length. *)
Definition station_conditions : prog (ndarray * ndarray) :=
  n <- call Lib.get_number_of_stations;;
  if n <? 0 then Raise (ValueError "negative dimensions are not allowed")
  else
    let xi := zeros (Z.to_nat n) in
    let re := zeros (Z.to_nat n) in
    w <- call (Lib.get_station_conditions (byref (c_int n))
                                          (data_as_fptr xi) (data_as_fptr re));;
    Ret (filled xi (fst w), filled re (snd w)).

Definition rms : prog float := call Lib.get_rms.

Definition print_case : prog unit := call Lib.show;;; Ret tt.

End XRotor.

(** ** The numeric contract of the boundary

    Written after the specification, to compare the arguments of the case
    push with: a real crosses as a single-precision float (four bytes), an
    integer as a native signed integer, a boolean as a one-byte truth value,
    an array as a column-major buffer of single-precision floats. *)





(** A multi-index within a shape. *)
Definition valid_index (shape idx : list nat) : Prop :=
  Forall2 (fun i d => (i < d)%nat) idx shape.

(** ** The module-level names *)

(** [s.rfind(c)]: the highest index of [c] in [s], or [-1]. *)
Fixpoint rfind_from (c : Ascii.ascii) (s : string) (i : Z) : Z :=
  match s with
  | EmptyString => -1
  | String a s' =>
      let r := rfind_from c s' (i + 1) in
      if 0 <=? r then r else if Ascii.eqb a c then i else -1
  end.

Definition rfind (c : Ascii.ascii) (s : string) : Z := rfind_from c s 0.

Fixpoint drop_chars (n : nat) (s : string) : string :=
  match n, s with
  | O, _ => s
  | S n', String _ s' => drop_chars n' s'
  | S _, EmptyString => EmptyString
  end.

(** [s[k:]], a negative [k] counting from the end. *)
Definition slice_from (s : string) (k : Z) : string :=
  let n := Z.of_nat (String.length s) in
  let start := if k <? 0 then Z.max 0 (n + k) else Z.min k n in
  drop_chars (Z.to_nat start) s.

(** [lib_path = glob.glob(os.path.join(here, 'libxrotor.*'))[0]], from the
    list of files the pattern matches. *)
Definition lib_path (matches : list string) : result string :=
  match matches with
  | [] => Raised IndexError
  | p :: _ => Returned p
  end.

(** [lib_ext = lib_path[lib_path.rfind('.'):]] *)
Definition lib_ext (lib_path : string) : string :=
  slice_from lib_path (rfind "."%char lib_path).

(** ** The operating system *)

Inductive platform : Type := Windows | Posix.

(** The names under which the library exports its entry points. *)
Definition entry_name (c : Lib.call) : string :=
  match c with
  | Lib.init => "init"
  | Lib.get_print => "get_print"
  | Lib.set_print _ => "set_print"
  | Lib.get_max_iter => "get_max_iter"
  | Lib.set_max_iter _ => "set_max_iter"
  | Lib.set_case _ => "set_case"
  | Lib.get_performance => "get_performance"
  | Lib.get_number_of_stations => "get_number_of_stations"
  | Lib.get_station_conditions _ _ _ => "get_station_conditions"
  | Lib.get_rms => "get_rms"
  | Lib.operate _ _ _ _ => "operate"
  | Lib.get_blade_angle_change => "get_blade_angle_change"
  | Lib.show => "show"
  end.

(** The entry points the constructor looks up in the library it has just
    loaded: four to set their [restype], then [init] to call it. *)
Inductive looked_up : Type :=
| at_get_print | at_operate | at_get_rms | at_get_blade_angle_change | at_init.

Definition looked_up_name (e : looked_up) : string :=
  match e with
  | at_get_print => "get_print"
  | at_operate => "operate"
  | at_get_rms => "get_rms"
  | at_get_blade_angle_change => "get_blade_angle_change"
  | at_init => "init"
  end.

(** Whether a library that lacks [missing] and the entry points named in
    [also] lacks [sym]. *)
Definition lacks (missing : looked_up) (also : list string) (sym : string)
  : bool :=
  existsb (String.eqb sym) (looked_up_name missing :: also).

(** What a file holds, as far as loading goes: the solver's shared library
    with all its entry points; a shared library that loads but lacks one of
    the entry points the constructor looks up, and possibly others; or
    something the dynamic loader refuses.  (A library that lacks only entry
    points the constructor does not look up is not modelled: the
    properties below are about sessions on the solver's library.) *)
Inductive filedata : Type :=
| SharedLibrary
| Lacking (missing : looked_up) (also : list string)
| NotLoadable.

(** A [ctypes.CDLL] object. *)
Record CDLL : Type := { _name : string; _handle : Z }.

(** The names [NamedTemporaryFile] picks and the handles the loader gives
    out are not the program's choice; all the program may rely on is that
    the name is one no existing file has and the handle one no loaded module
    has. *)
Class Oracle : Type := {
  mktemp : string -> gset string -> string;
  new_handle : gset Z -> Z
}.

Definition fresh_names {O : Oracle} : Prop :=
  forall (suffix : string) (X : gset string), mktemp suffix X ∉ X.

Definition fresh_handles {O : Oracle} : Prop :=
  forall X : gset Z, new_handle X ∉ X.

Section Sessions.

Context {S : Type} {L : XRotorLib S} {O : Oracle}.

(** A module mapped in the process: the solver's library, with its handle
    and its own state, or a library that lacks [missing] and the entry
    points named in [also]. *)
Inductive mapped : Type :=
| Solver (handle : Z) (st : S)
| Stub (handle : Z) (missing : looked_up) (also : list string) (st : S).

Definition mapped_handle (m : mapped) : Z :=
  match m with
  | Solver h _ => h
  | Stub h _ _ _ => h
  end.

Definition solver_part (m : mapped) : option (Z * S) :=
  match m with
  | Solver h st => Some (h, st)
  | Stub _ _ _ _ => None
  end.

(** The files that exist, the modules mapped in the process (by the path
    they were loaded from), and whether the temporary directory accepts new
    files. *)
Record World : Type := {
  w_platform : platform;
  w_tmp_writable : bool;
  w_files : gmap string filedata;
  w_modules : gmap string mapped
}.

Definition with_files (f : gmap string filedata) (w : World) : World :=
  {| w_platform := w_platform w; w_tmp_writable := w_tmp_writable w;
     w_files := f; w_modules := w_modules w |}.

Definition with_modules (m : gmap string mapped) (w : World) : World :=
  {| w_platform := w_platform w; w_tmp_writable := w_tmp_writable w;
     w_files := w_files w; w_modules := m |}.

(** The solver libraries among the mapped modules, each with its handle and
    state. *)
Definition w_loaded (w : World) : gmap string (Z * S) :=
  omap solver_part (w_modules w).

Definition handles (w : World) : gset Z :=
  map_img (mapped_handle <$> w_modules w).

(** [NamedTemporaryFile(mode='wb', delete=False, suffix=...)] followed by
    [close()]: a new, empty file under a name no file has. *)
Definition NamedTemporaryFile (suffix : string) (w : World)
  : result string * World :=
  if w_tmp_writable w then
    let name := mktemp suffix (dom (w_files w)) in
    (Returned name, with_files (<[name := NotLoadable]> (w_files w)) w)
  else (Raised PermissionError, w).

(** [shutil.copy2(src, dst)] *)
Definition copy2 (src dst : string) (w : World) : result string * World :=
  match w_files w !! src with
  | None => (Raised FileNotFoundError, w)
  | Some d =>
      if decide (src = dst) then (Raised SameFileError, w)
      else (Returned dst, with_files (<[dst := d]> (w_files w)) w)
  end.

(** [cdll.LoadLibrary(path)]: a module already mapped from [path] is
    found again, with its handle; otherwise the file is mapped under a
    new handle, if it is a shared library.  Reference counts are left out:
    a module is found again only under a name whose file is gone, which
    Windows, the one platform with an unload call here, does not allow
    while the module is mapped. *)
Definition LoadLibrary (path : string) (w : World) : result CDLL * World :=
  match w_modules w !! path with
  | Some m => (Returned {| _name := path; _handle := mapped_handle m |}, w)
  | None =>
      match w_files w !! path with
      | Some SharedLibrary =>
          let h := new_handle (handles w) in
          (Returned {| _name := path; _handle := h |},
           with_modules (<[path := Solver h lib_loaded]> (w_modules w)) w)
      | Some (Lacking missing also) =>
          let h := new_handle (handles w) in
          (Returned {| _name := path; _handle := h |},
           with_modules
             (<[path := Stub h missing also lib_loaded]> (w_modules w)) w)
      | _ => (Raised OSError, w)
      end
  end.

(** The world once every module with the handle [handle] is unmapped. *)
Definition unload (handle : Z) (w : World) : World :=
  with_modules
    (filter (fun e => mapped_handle (snd e) ≠ handle) (w_modules w)) w.

(** [ctypes.windll.kernel32.FreeLibrary(handle)].  [ctypes] has no [windll]
    off Windows.  On 64-bit Windows the handle is a Python integer passed
    with no [argtypes]: [ctypes] converts it through a C [long], of 32 bits
    there, and raises [ArgumentError] when it does not fit, so from
    [2 ^ 32] on.  Module handles are addresses and never negative: a
    negative number that still converts designates no module, nothing is
    unmapped and the call answers 0. *)
Definition FreeLibrary (handle : Z) (w : World) : result Z * World :=
  match w_platform w with
  | Posix => (Raised AttributeError, w)
  | Windows =>
      if (handle <? - 2 ^ 31) || (2 ^ 32 <=? handle) then
        (Raised ArgumentError, w)
      else if 0 <=? handle then
        (Returned (if decide (handle ∈ handles w) then 1 else 0),
         unload handle w)
      else (Returned 0, w)
  end.

(** [os.remove(path)]: Windows refuses to delete the file of a mapped
    module. *)
Definition os_remove (path : string) (w : World) : result unit * World :=
  match w_files w !! path with
  | None => (Raised FileNotFoundError, w)
  | Some _ =>
      match w_platform w, w_modules w !! path with
      | Windows, Some _ => (Raised PermissionError, w)
      | _, _ => (Returned tt, with_files (delete path (w_files w)) w)
      end
  end.

(** ** The session object *)

(** The attributes of an [XRotor] object; [None] is an attribute that
    is not (or no longer) there, and for [_case] also the value the
    constructor gives it. *)
Record session : Type := {
  _lib : option CDLL;
  _lib_path : option string;
  _case : option XRotor.Case
}.

Definition blank : session := {| _lib := None; _lib_path := None; _case := None |}.

Definition set__lib (v : option CDLL) (self : session) : session :=
  {| _lib := v; _lib_path := _lib_path self; _case := _case self |}.

Definition set__lib_path (v : option string) (self : session) : session :=
  {| _lib := _lib self; _lib_path := v; _case := _case self |}.

Definition set__case (v : option XRotor.Case) (self : session) : session :=
  {| _lib := _lib self; _lib_path := _lib_path self; _case := v |}.

(** A method body executed on [self]: every call goes through
    [self._lib] to the module behind its handle, where the entry point is
    looked up by name. *)
Fixpoint exec {A : Type} (p : prog A) (self : session) (w : World)
  : result A * World :=
  match p with
  | Ret a => (Returned a, w)
  | Raise e => (Raised e, w)
  | Call c k =>
      match _lib self with
      | None => (Raised AttributeError, w)
      | Some dll =>
          match w_modules w !! _name dll with
          | Some (Solver h st) =>
              if decide (h = _handle dll) then
                let '(r, st') := lib_call c st in
                exec (k r) self
                     (with_modules
                        (<[_name dll := Solver h st']> (w_modules w)) w)
              else (Crashed, w)
          | Some (Stub h missing also st) =>
              if decide (h = _handle dll) then
                if lacks missing also (entry_name c) then
                  (Raised AttributeError, w)
                else
                  let '(r, st') := lib_call c st in
                  exec (k r) self
                       (with_modules
                          (<[_name dll := Stub h missing also st']>
                             (w_modules w)) w)
              else (Crashed, w)
          | None => (Crashed, w)
          end
      end
  end.

(** [self._lib.<sym>]: the lookup of an entry point without a call. *)
Definition entry_point (sym : string) (self : session) (w : World)
  : result unit :=
  match _lib self with
  | None => Raised AttributeError
  | Some dll =>
      match w_modules w !! _name dll with
      | Some (Solver h _) =>
          if decide (h = _handle dll) then Returned tt else Crashed
      | Some (Stub h missing also _) =>
          if decide (h = _handle dll) then
            if lacks missing also sym then Raised AttributeError
            else Returned tt
          else Crashed
      | None => Crashed
      end
  end.

Fixpoint entry_points (syms : list string) (self : session) (w : World)
  : result unit :=
  match syms with
  | [] => Returned tt
  | sym :: rest =>
      match entry_point sym self w with
      | Returned _ => entry_points rest self w
      | failed => failed
      end
  end.

(** The functions whose [restype] the constructor sets, in order. *)
Definition restyped : list string :=
  ["get_print"; "operate"; "get_rms"; "get_blade_angle_change"].

(** [XRotor.__init__], given the module-level [lib_path] and [lib_ext].
    Setting a [restype] looks the function up in the library and changes no
    state.  The value [init] returns is dropped. *)
Definition __init__ (lib_path lib_ext : string) (self : session) (w : World)
  : result unit * session * World :=
  match NamedTemporaryFile lib_ext w with
  | (Returned tmp_name, w1) =>
      let self1 := set__lib_path (Some tmp_name) self in
      match copy2 lib_path tmp_name w1 with
      | (Returned _, w2) =>
          match LoadLibrary tmp_name w2 with
          | (Returned dll, w3) =>
              let self2 := set__lib (Some dll) self1 in
              match entry_points restyped self2 w3 with
              | Returned _ =>
                  match exec (call Lib.init) self2 w3 with
                  | (Returned _, w4) =>
                      (Returned tt, set__case None self2, w4)
                  | (Raised e, w4) => (Raised e, self2, w4)
                  | (Crashed, w4) => (Crashed, self2, w4)
                  end
              | Raised e => (Raised e, self2, w3)
              | Crashed => (Crashed, self2, w3)
              end
          | (Raised e, w3) => (Raised e, self1, w3)
          | (Crashed, w3) => (Crashed, self1, w3)
          end
      | (Raised e, w2) => (Raised e, self1, w2)
      | (Crashed, w2) => (Crashed, self1, w2)
      end
  | (Raised e, w1) => (Raised e, self, w1)
  | (Crashed, w1) => (Crashed, self, w1)
  end.

(** [XRotor()]: the caller gets the object only if [__init__] returns. *)
Definition new (lib_path lib_ext : string) (w : World) : result session * World :=
  match __init__ lib_path lib_ext blank w with
  | (Returned _, self, w') => (Returned self, w')
  | (Raised e, _, w') => (Raised e, w')
  | (Crashed, _, w') => (Crashed, w')
  end.

(** Importing the module and constructing a session: the import fails
    when the pattern matches no file. *)
Definition open (matches : list string) (w : World) : result session * World :=
  match lib_path matches with
  | Returned p => new p (lib_ext p) w
  | Raised e => (Raised e, w)
  | Crashed => (Crashed, w)
  end.

(** [XRotor.__del__] *)
Definition __del__ (self : session) (w : World) : result unit * session * World :=
  match _lib self with
  | None => (Raised AttributeError, self, w)
  | Some dll =>
      let handle := _handle dll in
      let self1 := set__lib None self in
      (* try: FreeLibrary(handle)   except AttributeError: pass *)
      let '(freed, w1) := FreeLibrary handle w in
      let pending : result unit :=
        match freed with
        | Returned _ | Raised AttributeError => Returned tt
        | Raised e => Raised e
        | Crashed => Crashed
        end in
      (* finally: os.remove(self._lib_path) *)
      match _lib_path self1 with
      | None => (Raised AttributeError, self1, w1)
      | Some path =>
          match os_remove path w1 with
          | (Returned _, w2) => (pending, self1, w2)
          | (failed, w2) => (failed, self1, w2)
          end
      end
  end.

(** The [case] setter. *)
Definition set_case (case : XRotor.Case) (self : session) (w : World)
  : result unit * session * World :=
  let self1 := set__case (Some case) self in
  let '(r, w') := exec (XRotor.push_case case) self1 w in
  (r, self1, w').

(** A session is open in a world when its temporary copy exists and the
    module loaded from it is the one its handle designates. *)
Definition is_open (self : session) (w : World) : Prop :=
  exists dll st,
    _lib self = Some dll /\ _lib_path self = Some (_name dll) /\
    is_Some (w_files w !! _name dll) /\
    w_loaded w !! _name dll = Some (_handle dll, st).

(** A handle the teardown gets through with: any handle where there is
    no unload call, and on Windows one that fits a C [long] as a positive
    number. *)
Definition frees (w : World) (handle : Z) : Prop :=
  w_platform w = Posix \/ 0 <= handle < 2 ^ 31.

(** A handle the unload call refuses: on Windows, one that does not fit
    32 bits. *)
Definition too_wide (w : World) (handle : Z) : Prop :=
  w_platform w = Windows /\ 2 ^ 32 <= handle.

(** The world once the session behind [dll] is torn down: its module
    unloaded where the platform can, its temporary copy deleted. *)
Definition torn_down (dll : CDLL) (w : World) : World :=
  let w1 :=
    match w_platform w with
    | Windows => unload (_handle dll) w
    | Posix => w
    end in
  with_files (delete (_name dll) (w_files w1)) w1.

(** No two loaded modules share a handle. *)
Definition distinct_handles (w : World) : Prop :=
  forall (p1 p2 : string) (h : Z) (st1 st2 : S),
    w_loaded w !! p1 = Some (h, st1) ->
    w_loaded w !! p2 = Some (h, st2) -> p1 = p2.

End Sessions.

Arguments World S : clear implicits.
Arguments mapped S : clear implicits.

(** ** A sample library, oracle and world

    Small executable instances, to run the definitions above on concrete
    inputs.  The library keeps the print flag, the iteration limit (it
    accepts 1 to 1000 and ignores anything else) and the mode of the last
    solve; [init] answers the status it is given. *)

Module Sample.

Record state : Type := {
  s_print : bool;
  s_max_iter : Z;
  s_mode : Z
}.

Definition fresh_state : state :=
  {| s_print := true; s_max_iter := 40; s_mode := 0 |}.

Definition accepts (n : Z) : Prop := 1 <= n <= 1000.

Definition store_max_iter (a : carg) (st : state) : state :=
  match a with
  | byref (C_int n) =>
      if (1 <=? n) && (n <=? 1000) then
        {| s_print := s_print st; s_max_iter := n; s_mode := s_mode st |}
      else st
  | _ => st
  end.

Definition store_print (a : carg) (st : state) : state :=
  match a with
  | byref (C_bool b) =>
      {| s_print := b; s_max_iter := s_max_iter st; s_mode := s_mode st |}
  | _ => st
  end.

Definition store_mode (a : carg) (st : state) : state :=
  match a with
  | byref (C_int m) =>
      {| s_print := s_print st; s_max_iter := s_max_iter st; s_mode := m |}
  | _ => st
  end.

Definition three (v : float) : Lib.writes :=
  fun i => if (i <? 3)%nat then Some v else None.

Definition entry (status : Z) (c : Lib.call) (st : state)
  : Lib.ret c * state :=
  match c as c0 return Lib.ret c0 * state with
  | Lib.init => (status, st)
  | Lib.get_print => (s_print st, st)
  | Lib.set_print a => (0, store_print a st)
  | Lib.get_max_iter => (s_max_iter st, st)
  | Lib.set_max_iter a => (0, store_max_iter a st)
  | Lib.set_case _ => (0, st)
  | Lib.get_performance =>
      ({| Lib.cell_rpm := 2000; Lib.cell_thrust := 481;
          Lib.cell_torque := 105; Lib.cell_power := 21900;
          Lib.cell_efficiency := 0.5 |}, st)
  | Lib.get_number_of_stations => (3, st)
  | Lib.get_station_conditions _ _ _ => ((three 0.5, three 1000), st)
  | Lib.get_rms => (0.25%float, st)
  | Lib.operate mode _ _ _ => (0.25%float, store_mode mode st)
  | Lib.get_blade_angle_change => (2%float, st)
  | Lib.show => (0, st)
  end.

(** The library whose [init] answers [status]. *)
Definition library (status : Z) : XRotorLib state :=
  {| lib_loaded := fresh_state; lib_call := entry status |}.

(** Temporary names longer than every existing name. *)
Definition longest (l : list string) : nat :=
  foldr (fun s n => Nat.max (String.length s) n) 0%nat l.

Fixpoint padding (n : nat) : string :=
  match n with
  | O => EmptyString
  | Datatypes.S n' => String "x"%char (padding n')
  end.

Definition tmp_name (suffix : string) (X : gset string) : string :=
  ("/tmp/tmp" +:+ padding (Datatypes.S (longest (elements X)))) +:+ suffix.

Definition oracle : Oracle :=
  {| mktemp := tmp_name; new_handle := fresh |}.

Definition canonical : string := "/opt/xrotor/libxrotor.so".

(** A machine on which only the canonical library exists. *)
Definition world (pf : platform) : World state :=
  {| w_platform := pf;
     w_tmp_writable := true;
     w_files := {[ canonical := SharedLibrary ]};
     w_modules := ∅ |}.

Definition a_case : XRotor.Case :=
  {| XRotor.conditions :=
       {| XRotor.rho := 1.25; XRotor.vso := 340; XRotor.rmu := 0.5;
          XRotor.alt := 1; XRotor.vel := 27; XRotor.adv := 0.125 |};
     XRotor.disk :=
       {| XRotor.n_blds := 2;
          XRotor.blade :=
            {| XRotor.geometry :=
                 {| XRotor.r_hub := 0.0625; XRotor.r_tip := 0.75;
                    XRotor.r_wake := 0; XRotor.rake := 0;
                    XRotor.n_geom := 3 |};
               XRotor.n_aero := 1;
               XRotor.aerodata :=
                 {| nd_dtype := float32; nd_shape := [2; 1]%nat;
                    nd_order := F_order; nd_mem := [0; 6]%float |};
               XRotor.geomdata :=
                 {| nd_dtype := float32; nd_shape := [2; 3]%nat;
                    nd_order := C_order;
                    nd_mem := [1; 2; 3; 4; 5; 6]%float |} |} |};
     XRotor.settings :=
       {| XRotor.free := true; XRotor.duct := false;
          XRotor.wind := false |} |}.


(** A machine whose canonical file is a shared library without
    [get_rms]. *)
Definition stub_world (pf : platform) : World state :=
  {| w_platform := pf;
     w_tmp_writable := true;
     w_files := {[ canonical := Lacking at_get_rms [] ]};
     w_modules := ∅ |}.

(** A loader that maps modules high in a 64-bit address space. *)
Definition high_handle (X : gset Z) : Z :=
  2 ^ 47 + fresh (set_map (fun h : Z => h - 2 ^ 47) X : gset Z).

Definition high_oracle : Oracle :=
  {| mktemp := tmp_name; new_handle := high_handle |}.

(** One session constructed on that machine, and a second one
    constructed while the first is open. *)
Definition first_open (pf : platform) (status : Z) : result session * World state :=
  open (L := library status) (O := oracle)
       [canonical] (world pf).

Definition session_of (r : result session * World state) : session :=
  match fst r with
  | Returned s => s
  | _ => blank
  end.

Definition second_open (pf : platform) (status : Z) : result session * World state :=
  new (L := library status) (O := oracle)
      canonical (lib_ext canonical) (snd (first_open pf status)).

End Sample.

(** ** Further vocabulary for the properties below *)

(** The argument combinations of [operate] that its guards refuse: thrust
    together with torque or power, or nothing at all. *)
Definition refused (thrust torque power rpm : option float) : bool :=
  XRotor.not_None thrust && (XRotor.not_None torque || XRotor.not_None power)
  || negb (XRotor.not_None thrust || XRotor.not_None torque
           || XRotor.not_None power || XRotor.not_None rpm).

(** The combinations in which the rpm is given besides a primary target. *)
Definition rpm_constrained (thrust torque power rpm : option float) : bool :=
  (XRotor.not_None thrust || XRotor.not_None torque || XRotor.not_None power)
  && XRotor.not_None rpm.

Definition is_pair (r : XRotor.operate_result) : bool :=
  match r with
  | XRotor.RmsAngle _ _ => true
  | XRotor.Rms _ => false
  end.

(** Whether a character occurs in a string. *)
Fixpoint occurs (c : Ascii.ascii) (s : string) : bool :=
  match s with
  | EmptyString => false
  | String a s' => Ascii.eqb a c || occurs c s'
  end.

(** The [case] property. *)
Definition case (self : session) : option XRotor.Case := _case self.

(** A library like the sample one, except that it reports the station
    count it is given. *)
Module Faulty.

Definition entry (count : Z) (c : Lib.call) (st : Sample.state)
  : Lib.ret c * Sample.state :=
  match c as c0 return Lib.ret c0 * Sample.state with
  | Lib.get_number_of_stations => (count, st)
  | c0 => Sample.entry 0 c0 st
  end.

Definition library (count : Z) : XRotorLib Sample.state :=
  {| lib_loaded := Sample.fresh_state; lib_call := entry count |}.

End Faulty.

(** * Properties *)

(** ** The [operate] protocol *)

Section Operate.

Import XRotor.

Lemma wrap_int_small (n : Z) : - 2 ^ 31 <= n < 2 ^ 31 -> wrap_int n = n.
Proof.
  intros Hn. unfold wrap_int.
  rewrite Z.mod_small by lia. lia.
Qed.

Lemma wrap_int_range (v : Z) : - 2 ^ 31 <= wrap_int v < 2 ^ 31.
Proof.
  unfold wrap_int.
  pose proof (Z.mod_pos_bound (v + 2 ^ 31) (2 ^ 32) ltac:(lia)). lia.
Qed.

(** A program that raises at once makes no call and leaves the library as
    it was. *)
Lemma run_Raise {S : Type} {L : XRotorLib S} {A : Type} (e : exn) (st : S) :
  run (A := A) (Raise e) st = (Raised e, st, []).
Proof. reflexivity. Qed.

(** Thrust together with torque or power is refused, whatever [rpm] is. *)
Lemma operate_thrust_conflict (thrust : float) (torque power rpm : option float) :
  not_None torque || not_None power = true ->
  exists msg, operate (Some thrust) torque power rpm = Raise (ValueError msg).
Proof.
  destruct torque, power; simpl; intros H; try discriminate; eauto.
Qed.

(** C1, at the input where it fails: torque and power together are not
    refused; the library is called with mode 2 and its state changes. *)
Example operate_torque_and_power_runs :
  run (L := Sample.library 0)
      (operate None (Some 100%float) (Some 20000%float) None)
      Sample.fresh_state
  = (Returned (Rms 0.25%float),
     {| Sample.s_print := true; Sample.s_max_iter := 40; Sample.s_mode := 2 |},
     [Lib.operate (byref (C_int 2)) (byref (C_float 100%float))
                  (byref (C_int 2)) null]).
Proof. vm_compute. reflexivity. Qed.

(** C2: [operate] has four cases.  A sole primary target is one call with
    mode 1 (thrust), 2 (torque) or 3 (power), secondary selector 2 and no
    rpm, and returns the residual.  A primary target with [rpm] is one
    call with that mode, secondary selector 1 and the rpm, then one read
    of the blade angle change, and returns the pair.  [rpm] alone is one
    call with mode 4 and returns the residual; the blade angle change is
    not read. *)
Theorem operate_mode_dispatch (v r : float) :
  operate (Some v) None None None
    = Call (Lib.operate (byref (C_int 1)) (byref (c_float v))
                        (byref (C_int 2)) null)
           (fun rms => Ret (Rms rms)) /\
  operate None (Some v) None None
    = Call (Lib.operate (byref (C_int 2)) (byref (c_float v))
                        (byref (C_int 2)) null)
           (fun rms => Ret (Rms rms)) /\
  operate None None (Some v) None
    = Call (Lib.operate (byref (C_int 3)) (byref (c_float v))
                        (byref (C_int 2)) null)
           (fun rms => Ret (Rms rms)) /\
  operate (Some v) None None (Some r)
    = Call (Lib.operate (byref (C_int 1)) (byref (c_float v))
                        (byref (C_int 1)) (byref (c_float r)))
           (fun rms => Call Lib.get_blade_angle_change
                         (fun angle => Ret (RmsAngle rms angle))) /\
  operate None (Some v) None (Some r)
    = Call (Lib.operate (byref (C_int 2)) (byref (c_float v))
                        (byref (C_int 1)) (byref (c_float r)))
           (fun rms => Call Lib.get_blade_angle_change
                         (fun angle => Ret (RmsAngle rms angle))) /\
  operate None None (Some v) (Some r)
    = Call (Lib.operate (byref (C_int 3)) (byref (c_float v))
                        (byref (C_int 1)) (byref (c_float r)))
           (fun rms => Call Lib.get_blade_angle_change
                         (fun angle => Ret (RmsAngle rms angle))) /\
  operate None None None (Some r)
    = Call (Lib.operate (byref (C_int 4)) (byref (c_float r)) null null)
           (fun rms => Ret (Rms rms)).
Proof. repeat split; reflexivity. Qed.

(** C3: with thrust, torque, power and rpm all absent, [operate] raises
    [ValueError]; run against any library in any state it makes no call
    and leaves the state as it was. *)
Theorem operate_no_target {S : Type} {L : XRotorLib S} (st : S) :
  operate None None None None
    = Raise (ValueError "Neither thrust, torque, power, or rpm was provided.") /\
  run (operate None None None None) st
    = (Raised (ValueError "Neither thrust, torque, power, or rpm was provided."),
       st, []).
Proof. split; reflexivity. Qed.

(** C10: torque and power together, without thrust, are accepted: the
    call is the torque solve (mode 2 with the torque value), the same
    program as when power is absent, for every [rpm]. *)
Theorem operate_torque_shadows_power (torque power : float) (rpm : option float) :
  operate None (Some torque) (Some power) rpm
    = operate None (Some torque) None rpm /\
  operate None (Some torque) (Some power) rpm
    = match rpm with
      | None =>
          Call (Lib.operate (byref (C_int 2)) (byref (c_float torque))
                            (byref (C_int 2)) null)
               (fun rms => Ret (Rms rms))
      | Some r =>
          Call (Lib.operate (byref (C_int 2)) (byref (c_float torque))
                            (byref (C_int 1)) (byref (c_float r)))
               (fun rms => Call Lib.get_blade_angle_change
                             (fun angle => Ret (RmsAngle rms angle)))
      end.
Proof. destruct rpm; split; reflexivity. Qed.

End Operate.

(** ** Scalar configuration and station diagnostics *)

Section Pulls.

Import XRotor.

Context {S : Type} {L : XRotorLib S}.

(** C7: for a library that hands back an iteration limit it accepted, and
    a positive [N] it accepts (a native integer), setting [max_iter] to
    [N] and reading it returns [N], in two calls.  The setters check
    nothing: whatever the value, they are the one library call. *)
Theorem max_iter_roundtrip (accepts : Z -> Prop) (st : S) (N : Z) :
  (forall (s : S) (n : Z), accepts n ->
     fst (lib_call Lib.get_max_iter
            (snd (lib_call (Lib.set_max_iter (byref (C_int n))) s))) = n) ->
  0 < N -> N < 2 ^ 31 -> accepts N ->
  (exists st' : S,
     run (set_max_iter N;;; max_iter) st
       = (Returned N, st',
          [Lib.set_max_iter (byref (C_int N)); Lib.get_max_iter])) /\
  (forall v : Z,
     set_max_iter v
       = Call (Lib.set_max_iter (byref (C_int (wrap_int v))))
              (fun _ => Ret tt)) /\
  (forall b : bool,
     set_print b = Call (Lib.set_print (byref (C_bool b))) (fun _ => Ret tt)).
Proof.
  intros Hlib Hpos Hint Hacc. split; [|split; reflexivity].
  specialize (Hlib st N Hacc).
  unfold set_max_iter, max_iter, call, c_int. simpl.
  rewrite wrap_int_small by lia.
  destruct (lib_call (Lib.set_max_iter (byref (C_int N))) st) as [r st1] eqn:E1.
  simpl in Hlib.
  destruct (lib_call Lib.get_max_iter st1) as [m st2] eqn:E2.
  simpl in Hlib. subst m. eexists. reflexivity.
Qed.

Lemma length_filled (a : ndarray) (w : Lib.writes) :
  length (nd_mem (filled a w)) = length (nd_mem a).
Proof. unfold filled. simpl. apply length_imap. Qed.

Lemma length_zeros (n : nat) : length (nd_mem (zeros n)) = n.
Proof. unfold zeros. simpl. apply repeat_length. Qed.

(** C8: the station pull first asks the library for the station count
    [n]; for a count that is a non-negative native integer it then makes
    one request for [n] pairs into two zeroed buffers of length [n], and
    returns two arrays of length [n]. *)
Theorem station_conditions_two_step (st : S) :
  let n := fst (lib_call Lib.get_number_of_stations st) in
  0 <= n < 2 ^ 31 ->
  exists (xi re : ndarray) (st' : S),
    run station_conditions st
      = (Returned (xi, re), st',
         [Lib.get_number_of_stations;
          Lib.get_station_conditions (byref (C_int n))
            (data_as_fptr (zeros (Z.to_nat n)))
            (data_as_fptr (zeros (Z.to_nat n)))]) /\
    nd_shape xi = [Z.to_nat n] /\ nd_shape re = [Z.to_nat n] /\
    length (nd_mem xi) = Z.to_nat n /\ length (nd_mem re) = Z.to_nat n.
Proof.
  intros n Hn. unfold station_conditions, call. simpl.
  destruct (lib_call Lib.get_number_of_stations st) as [m st1] eqn:E1.
  simpl in n. subst n. simpl.
  destruct (Z.ltb_spec m 0) as [Hneg|_]; [lia|]. simpl.
  unfold c_int. rewrite wrap_int_small by lia.
  destruct (lib_call (Lib.get_station_conditions (byref (C_int m))
              (data_as_fptr (zeros (Z.to_nat m)))
              (data_as_fptr (zeros (Z.to_nat m)))) st1) as [w st2] eqn:E2.
  exists (filled (zeros (Z.to_nat m)) (fst w)),
         (filled (zeros (Z.to_nat m)) (snd w)), st2.
  repeat split; try reflexivity;
    rewrite length_filled; apply length_zeros.
Qed.

End Pulls.

(** ** Single precision

    [round_single] lands in the binary32 format: the result of
    [binary_round] is a valid float of that format. *)

Section Digits.







End Digits.

Section Shifts.






End Shifts.





(** ** The case push *)

Section CasePush.

Import XRotor.

(** Concatenated blocks of one length [d]: element [i] of block [k]. *)
Lemma nth_flat_map_block {B C : Type} (f : B -> list C) (d : nat)
      (l : list B) (db : B) (dc : C) :
  (forall x, length (f x) = d) ->
  forall i k : nat, (i < d)%nat -> (k < length l)%nat ->
  nth (i + d * k) (flat_map f l) dc = nth i (f (nth k l db)) dc.
Proof.
  intros Hlen i. induction l as [|x l IH]; intros k Hi Hk; simpl in *.
  - lia.
  - destruct k as [|k].
    + rewrite Nat.mul_0_r, Nat.add_0_r.
      apply app_nth1. rewrite Hlen. exact Hi.
    + rewrite app_nth2 by (rewrite Hlen; nia).
      rewrite Hlen.
      replace (i + d * Datatypes.S k - d)%nat with (i + d * k)%nat by nia.
      apply IH; [exact Hi | lia].
Qed.

Lemma length_flat_map_block {B C : Type} (f : B -> list C) (d : nat)
      (l : list B) :
  (forall x, length (f x) = d) ->
  length (flat_map f l) = (d * length l)%nat.
Proof.
  intros Hlen. induction l as [|x l IH]; simpl.
  - lia.
  - rewrite length_app, Hlen, IH. nia.
Qed.

Lemma length_index_block (d : nat) (rest : list nat) :
  length (map (fun i => i :: rest) (seq 0 d)) = d.
Proof. rewrite length_map. apply length_seq. Qed.

Lemma offsetF_lt (shape idx : list nat) :
  valid_index shape idx ->
  (offsetF shape idx < length (indicesF shape))%nat.
Proof.
  unfold valid_index. intros Hv. induction Hv as [|i d idx shape Hid _ IH].
  - simpl. lia.
  - simpl.
    rewrite (length_flat_map_block _ d) by (intros; apply length_index_block).
    nia.
Qed.

(** The column-major enumeration has each index at its column-major
    offset. *)
Lemma nth_indicesF (shape idx : list nat) :
  valid_index shape idx ->
  nth (offsetF shape idx) (indicesF shape) [] = idx.
Proof.
  unfold valid_index. intros Hv. induction Hv as [|i d idx shape Hid Hv IH].
  - reflexivity.
  - simpl.
    rewrite (nth_flat_map_block _ d _ [] [])
      by (try (intros; apply length_index_block);
          try exact Hid; apply offsetF_lt; exact Hv).
    rewrite IH.
    rewrite (nth_indep _ [] (0%nat :: idx))
      by (rewrite length_index_block; exact Hid).
    rewrite (map_nth (fun j => j :: idx)).
    rewrite seq_nth by exact Hid. reflexivity.
Qed.

(** [asfortranarray] keeps type, shape and elements, and puts each element
    at its column-major offset. *)
Lemma asfortranarray_layout (a : ndarray) :
  nd_dtype (asfortranarray a) = nd_dtype a /\
  nd_shape (asfortranarray a) = nd_shape a /\
  nd_order (asfortranarray a) = F_order /\
  forall idx : list nat,
    valid_index (nd_shape a) idx ->
    nth (offsetF (nd_shape a) idx) (nd_mem (asfortranarray a)) 0%float
      = nd_get a idx.
Proof.
  unfold asfortranarray.
  destruct (nd_order a) eqn:Ho; simpl; repeat split; try assumption.
  - intros idx Hv.
    rewrite (nth_indep _ 0%float (nd_get a []))
      by (rewrite length_map; apply offsetF_lt; exact Hv).
    rewrite (map_nth (nd_get a)).
    rewrite nth_indicesF by exact Hv. reflexivity.
  - intros idx _. unfold nd_get, nd_offset. rewrite Ho. reflexivity.
Qed.






End CasePush.
(** ** Sessions *)

Section SessionProperties.

Context {S : Type} {L : XRotorLib S} {O : Oracle}.

(** *** The mapped modules *)

Lemma w_loaded_Some (w : World S) (p : string) (h : Z) (st : S) :
  w_loaded w !! p = Some (h, st) <-> w_modules w !! p = Some (Solver h st).
Proof.
  unfold w_loaded. rewrite lookup_omap.
  destruct (w_modules w !! p) as [[h' st'|h' m a st']|]; simpl;
    split; congruence.
Qed.

Lemma w_loaded_None (w : World S) (p : string) :
  w_modules w !! p = None -> w_loaded w !! p = None.
Proof. intros H. unfold w_loaded. rewrite lookup_omap, H. reflexivity. Qed.

Lemma w_loaded_insert (w : World S) (p : string) (h : Z) (st : S)
      (m : gmap string (mapped S)) :
  w_loaded (with_modules (<[p := Solver h st]> m) w)
  = <[p := (h, st)]> (omap solver_part m).
Proof. unfold w_loaded. simpl. apply omap_insert_Some. reflexivity. Qed.

Lemma elem_of_handles (w : World S) (p : string) (m : mapped S) :
  w_modules w !! p = Some m -> mapped_handle m ∈ handles w.
Proof.
  intros H. unfold handles. apply elem_of_map_img. exists p.
  rewrite lookup_fmap, H. reflexivity.
Qed.

Lemma handles_inv (w : World S) (h : Z) :
  h ∈ handles w ->
  exists (p : string) (m : mapped S),
    w_modules w !! p = Some m /\ mapped_handle m = h.
Proof.
  unfold handles. intros Hin. apply elem_of_map_img in Hin.
  destruct Hin as [p Hp]. apply lookup_fmap_Some in Hp.
  destruct Hp as (m & Hm & Hp). eauto.
Qed.

Lemma unload_lookup (h : Z) (w : World S) (p : string) (m : mapped S) :
  w_modules (unload h w) !! p = Some m <->
  w_modules w !! p = Some m /\ mapped_handle m <> h.
Proof. unfold unload. simpl. apply map_lookup_filter_Some. Qed.

Lemma unload_handles (h : Z) (w : World S) : h ∉ handles (unload h w).
Proof.
  intros Hin. apply handles_inv in Hin. destruct Hin as (p & m & Hm & Hh).
  apply unload_lookup in Hm. tauto.
Qed.

(** *** Entry points *)

(** The solver's library has every entry point. *)
Lemma solver_entry_points (syms : list string) (self : session) (w : World S)
      (dll : CDLL) (st : S) :
  _lib self = Some dll ->
  w_modules w !! _name dll = Some (Solver (_handle dll) st) ->
  entry_points syms self w = Returned tt.
Proof.
  intros Hlib Hm. induction syms as [|sym syms IH]; [reflexivity|].
  simpl. unfold entry_point. rewrite Hlib, Hm.
  destruct (decide (_handle dll = _handle dll)) as [_|]; [|congruence].
  exact IH.
Qed.

(** A library that lacks one of the entry points the constructor looks
    up stops the constructor, at a lookup or at the call of [init], with
    nothing changed. *)
Lemma stub_refuses (self : session) (w : World S) (dll : CDLL)
      (missing : looked_up) (also : list string) (st : S) :
  _lib self = Some dll ->
  w_modules w !! _name dll = Some (Stub (_handle dll) missing also st) ->
  entry_points restyped self w = Raised AttributeError \/
  (entry_points restyped self w = Returned tt /\
   exec (call Lib.init) self w = (Raised AttributeError, w)).
Proof.
  intros Hlib Hm. unfold restyped, entry_points, entry_point, call, exec.
  rewrite Hlib, Hm.
  destruct (decide (_handle dll = _handle dll)) as [_|]; [|congruence].
  unfold lacks.
  destruct missing; simpl;
    repeat match goal with
           | |- context [existsb ?f also] => destruct (existsb f also)
           end; simpl; auto.
Qed.

Lemma run_not_Crashed {A : Type} (q : prog A) (st : S) :
  fst (fst (run q st)) <> Crashed.
Proof.
  revert st. induction q as [a|e|c k IH]; intros st; simpl; try discriminate.
  destruct (lib_call c st) as [r st1]. specialize (IH r st1).
  destruct (run (k r) st1) as [[res st2] tr]. exact IH.
Qed.

(** A method on a session whose module is the solver's library is the
    method run on that module's state, which is then stored back. *)
Lemma exec_solver {A : Type} (q : prog A) (self : session) (w : World S)
      (dll : CDLL) (st : S) :
  _lib self = Some dll ->
  w_modules w !! _name dll = Some (Solver (_handle dll) st) ->
  exec q self w
  = (fst (fst (run q st)),
     with_modules
       (<[_name dll := Solver (_handle dll) (snd (fst (run q st)))]>
          (w_modules w)) w).
Proof.
  intros Hlib. revert w st.
  induction q as [a|e|c k IH]; intros w st Hl.
  - simpl. rewrite insert_id by exact Hl. destruct w; reflexivity.
  - simpl. rewrite insert_id by exact Hl. destruct w; reflexivity.
  - simpl. rewrite Hlib, Hl.
    destruct (decide (_handle dll = _handle dll)) as [_|]; [|congruence].
    destruct (lib_call c st) as [r st1].
    rewrite (IH r _ st1) by (simpl; apply lookup_insert_eq).
    destruct (run (k r) st1) as [[res st2] tr]. simpl.
    rewrite insert_insert_eq. reflexivity.
Qed.

Lemma exec_run {A : Type} (q : prog A) (self : session) (w : World S)
      (dll : CDLL) (st : S) :
  _lib self = Some dll ->
  w_loaded w !! _name dll = Some (_handle dll, st) ->
  fst (exec q self w) = fst (fst (run q st)) /\
  w_platform (snd (exec q self w)) = w_platform w /\
  w_files (snd (exec q self w)) = w_files w /\
  w_loaded (snd (exec q self w))
    = <[_name dll := (_handle dll, snd (fst (run q st)))]> (w_loaded w).
Proof.
  intros Hlib Hl. apply w_loaded_Some in Hl.
  rewrite (exec_solver q self w dll st Hlib Hl). cbn [fst snd].
  repeat split. apply w_loaded_insert.
Qed.

(** *** Construction *)

(** The constructor, case by case: what it returns or raises, the object
    it leaves and the world it leaves, from what the world holds. *)
Lemma init_table (p ext : string) (w : World S) :
  fresh_names ->
  let name := mktemp ext (dom (w_files w)) in
  let self1 := set__lib_path (Some name) blank in
  let lib (h : Z) := set__lib (Some {| _name := name; _handle := h |}) self1 in
  let copied (d : filedata) := with_files (<[name := d]> (w_files w)) w in
  let mapping (m : mapped S) (d : filedata) :=
    with_modules (<[name := m]> (w_modules w)) (copied d) in
  __init__ p ext blank w =
  if w_tmp_writable w then
    match w_files w !! p with
    | None =>
        (Raised (if decide (p = name) then SameFileError
                 else FileNotFoundError), self1, copied NotLoadable)
    | Some d =>
        match w_modules w !! name with
        | Some (Solver h st0) =>
            (Returned tt, set__case None (lib h),
             mapping (Solver h (snd (lib_call Lib.init st0))) d)
        | Some (Stub h _ _ _) => (Raised AttributeError, lib h, copied d)
        | None =>
            let h := new_handle (handles w) in
            match d with
            | SharedLibrary =>
                (Returned tt, set__case None (lib h),
                 mapping (Solver h (snd (lib_call Lib.init lib_loaded))) d)
            | Lacking missing also =>
                (Raised AttributeError, lib h,
                 mapping (Stub h missing also lib_loaded) d)
            | NotLoadable => (Raised OSError, self1, copied d)
            end
        end
    end
  else (Raised PermissionError, blank, w).
Proof.
  intros Hfresh name self1 lib copied mapping.
  assert (Hname : w_files w !! name = None).
  { apply not_elem_of_dom. apply Hfresh. }
  unfold __init__, NamedTemporaryFile.
  destruct (w_tmp_writable w) eqn:Hwr; [|reflexivity].
  fold name. unfold copy2. cbn -[entry_points exec].
  destruct (decide (p = name)) as [Heq|Hne].
  { rewrite Heq, lookup_insert_eq, Hname.
    destruct (decide (name = name)); [|congruence].
    subst self1 copied. unfold with_files. cbn. rewrite Hwr. reflexivity. }
  rewrite lookup_insert_ne by congruence.
  destruct (w_files w !! p) as [d|] eqn:Hp.
  2:{ subst self1 copied. unfold with_files. cbn. rewrite Hwr. reflexivity. }
  destruct (decide (p = name)) as [|_]; [congruence|].
  unfold LoadLibrary. cbn -[entry_points exec].
  rewrite insert_insert_eq.
  destruct (w_modules w !! name) as [[h st0|h missing also st0]|] eqn:Hl.
  - cbn -[entry_points exec].
    rewrite (solver_entry_points _ _ _ {| _name := name; _handle := h |} st0)
      by (try reflexivity; exact Hl).
    rewrite (exec_solver _ _ _ {| _name := name; _handle := h |} st0)
      by (try reflexivity; exact Hl).
    cbn. destruct (lib_call Lib.init st0) as [r st'].
    subst self1 lib copied mapping. unfold with_modules, with_files. cbn.
    rewrite Hwr. reflexivity.
  - cbn -[entry_points exec].
    match goal with
    | |- context [entry_points restyped ?s0 ?w0] =>
        destruct (stub_refuses s0 w0 {| _name := name; _handle := h |}
                    missing also st0 eq_refl Hl) as [Hlook | [Hlook Hcall]];
          rewrite Hlook;
          [|match goal with
            | |- context [exec (call Lib.init) ?s1 ?w1] =>
                change (exec (call Lib.init) s1 w1)
                  with (exec (call Lib.init) s0 w0)
            end; rewrite Hcall]
    end;
      subst self1 lib copied; unfold with_files; cbn; rewrite Hwr;
      reflexivity.
  - rewrite lookup_insert_eq.
    destruct d as [|missing also|].
    + cbn -[entry_points exec].
      rewrite (solver_entry_points _ _ _
                 {| _name := name; _handle := new_handle (handles w) |}
                 lib_loaded)
        by (try reflexivity; apply lookup_insert_eq).
      rewrite (exec_solver _ _ _
                 {| _name := name; _handle := new_handle (handles w) |}
                 lib_loaded)
        by (try reflexivity; apply lookup_insert_eq).
      cbn. destruct (lib_call Lib.init lib_loaded) as [r st'].
      cbn. rewrite insert_insert_eq.
      subst self1 lib copied mapping. unfold with_modules, with_files. cbn.
      rewrite Hwr. reflexivity.
    + cbn -[entry_points exec].
      match goal with
      | |- context [entry_points restyped ?s0 ?w0] =>
          destruct (stub_refuses s0 w0
                      {| _name := name; _handle := new_handle (handles w) |}
                      missing also lib_loaded eq_refl
                      (lookup_insert_eq _ _ _))
            as [Hlook | [Hlook Hcall]];
            rewrite Hlook;
            [|match goal with
              | |- context [exec (call Lib.init) ?s1 ?w1] =>
                  change (exec (call Lib.init) s1 w1)
                    with (exec (call Lib.init) s0 w0)
              end; rewrite Hcall]
      end;
        subst self1 lib copied mapping; unfold with_modules, with_files;
        cbn; rewrite Hwr; reflexivity.
    + subst self1 copied. unfold with_files. cbn. rewrite Hwr. reflexivity.
Qed.

(** What a successful construction leaves: the session's attributes, the
    copy of the canonical file under the temporary name, and the module
    loaded from it, found again or mapped under a new handle, with [init]
    run on its state. *)
Lemma new_Returned (p ext : string) (w w' : World S) (s : session) :
  fresh_names ->
  new p ext w = (Returned s, w') ->
  let name := mktemp ext (dom (w_files w)) in
  exists (d : filedata) (h : Z) (st : S),
    w_tmp_writable w = true /\
    w_files w !! p = Some d /\
    s = {| _lib := Some {| _name := name; _handle := h |};
           _lib_path := Some name; _case := None |} /\
    w' = with_modules (<[name := Solver h st]> (w_modules w))
           (with_files (<[name := d]> (w_files w)) w) /\
    ((exists st0, w_modules w !! name = Some (Solver h st0) /\
                  st = snd (lib_call Lib.init st0)) \/
     (w_modules w !! name = None /\ d = SharedLibrary /\
      h = new_handle (handles w) /\
      st = snd (lib_call Lib.init lib_loaded))).
Proof.
  intros Hfresh Hnew name. unfold new in Hnew.
  rewrite (init_table p ext w Hfresh) in Hnew. fold name in Hnew.
  destruct (w_tmp_writable w); [|discriminate].
  destruct (w_files w !! p) as [d|]; [|discriminate].
  destruct (w_modules w !! name) as [[h st0|h missing also st0]|] eqn:Hl;
    [| discriminate | destruct d as [|missing also|]; try discriminate];
    injection Hnew as <- <-.
  - exists d, h, (snd (lib_call Lib.init st0)).
    repeat split. left. eauto.
  - exists SharedLibrary, (new_handle (handles w)),
           (snd (lib_call Lib.init lib_loaded)).
    repeat split. right. repeat split.
Qed.

(** A session just constructed is open. *)
Lemma new_is_open (p ext : string) (w w' : World S) (s : session) :
  fresh_names ->
  new p ext w = (Returned s, w') -> is_open s w' /\ _case s = None.
Proof.
  intros Hfresh Hnew.
  destruct (new_Returned p ext w w' s Hfresh Hnew)
    as (d & h & st & _ & _ & -> & -> & _).
  split; [|reflexivity].
  eexists _, st. simpl. repeat split.
  - rewrite lookup_insert_eq. eauto.
  - apply w_loaded_Some. simpl. apply lookup_insert_eq.
Qed.

(** Construction succeeds when the temporary directory is writable, the
    canonical file exists, and it is the solver's library or the solver's
    library is still mapped under the temporary name. *)
Lemma new_succeeds (p ext : string) (w : World S) :
  fresh_names ->
  w_tmp_writable w = true ->
  is_Some (w_files w !! p) ->
  (w_files w !! p = Some SharedLibrary /\
   w_modules w !! mktemp ext (dom (w_files w)) = None) \/
    is_Some (w_loaded w !! mktemp ext (dom (w_files w))) ->
  exists (s : session) (w' : World S), new p ext w = (Returned s, w').
Proof.
  intros Hfresh Hwr [d Hp] Hload. unfold new.
  rewrite (init_table p ext w Hfresh), Hwr, Hp.
  destruct Hload as [[Hd Hl] | [[h st] Hl]].
  - rewrite Hl. assert (d = SharedLibrary) as -> by congruence. eauto.
  - apply w_loaded_Some in Hl. rewrite Hl. eauto.
Qed.

(** C5, amended: construction fails when the pattern matches no file
    ([IndexError], at import), the temporary file cannot be created or the
    canonical file cannot be copied (an [OSError]), the loader refuses the
    copy ([OSError]), or the library that was loaded lacks an entry point
    the constructor looks up ([AttributeError], with the library left
    mapped).  In every other case, and in no other, it returns an open
    session, whatever the library's [init] answers. *)
Theorem construction_outcome (matches : list string) (w : World S) :
  fresh_names ->
  match matches with
  | [] => open matches w = (Raised IndexError, w)
  | p :: _ =>
      let name := mktemp (lib_ext p) (dom (w_files w)) in
      let loads :=
        w_tmp_writable w = true /\ is_Some (w_files w !! p) /\
        ((w_files w !! p = Some SharedLibrary /\ w_modules w !! name = None)
         \/ is_Some (w_loaded w !! name)) in
      (w_tmp_writable w = false ->
         open matches w = (Raised PermissionError, w)) /\
      (w_tmp_writable w = true -> w_files w !! p = None ->
         exists (e : exn) (w' : World S),
           open matches w = (Raised e, w') /\ is_OSError e = true) /\
      (w_tmp_writable w = true -> w_files w !! p = Some NotLoadable ->
         w_modules w !! name = None ->
         exists w' : World S, open matches w = (Raised OSError, w')) /\
      (w_tmp_writable w = true -> is_Some (w_files w !! p) ->
         (exists missing also,
            w_files w !! p = Some (Lacking missing also) /\
            w_modules w !! name = None) \/
         (exists h missing also st,
            w_modules w !! name = Some (Stub h missing also st)) ->
         exists w' : World S,
           open matches w = (Raised AttributeError, w') /\
           is_Some (w_modules w' !! name) /\ w_loaded w' !! name = None) /\
      (loads ->
         exists (s : session) (w' : World S),
           open matches w = (Returned s, w') /\ is_open s w' /\
           _case s = None) /\
      ((exists (s : session) (w' : World S),
          open matches w = (Returned s, w')) -> loads)
  end.
Proof.
  intros Hfresh. destruct matches as [|p rest]; [reflexivity|].
  intros name loads. unfold open, lib_path, new.
  rewrite (init_table p (lib_ext p) w Hfresh). fold name.
  split; [intros ->; reflexivity|].
  split; [intros -> ->; eexists _, _; split; [reflexivity|];
          destruct (decide (p = name)); reflexivity|].
  split; [intros -> -> ->; eexists; reflexivity|].
  split; [|split].
  - intros -> [d Hp] Hstub. rewrite Hp.
    destruct Hstub as [(missing & also & Hd & Hl)
                      | (h & missing & also & st & Hl)]; rewrite Hl.
    + assert (d = Lacking missing also) as -> by congruence.
      eexists. split; [reflexivity|]. simpl. split.
      * rewrite lookup_insert_eq. eauto.
      * apply w_loaded_None in Hl. unfold w_loaded in *. simpl.
        rewrite omap_insert_None by reflexivity.
        apply lookup_delete_eq.
    + eexists. split; [reflexivity|]. simpl. split; [eauto|].
      unfold w_loaded. simpl. rewrite lookup_omap, Hl. reflexivity.
  - intros (Hwr & Hp & Hload).
    destruct (new_succeeds p (lib_ext p) w Hfresh Hwr Hp Hload)
      as (s & w' & Hnew).
    exists s, w'. split; [|exact (new_is_open _ _ _ _ _ Hfresh Hnew)].
    unfold new in Hnew. rewrite (init_table p (lib_ext p) w Hfresh) in Hnew.
    exact Hnew.
  - intros (s & w' & Hnew).
    assert (Hnew' : new p (lib_ext p) w = (Returned s, w')).
    { unfold new. rewrite (init_table p (lib_ext p) w Hfresh). exact Hnew. }
    destruct (new_Returned _ _ _ _ _ Hfresh Hnew')
      as (d & h & st & Hwr & Hp & _ & _ & Hh).
    fold name in Hh. split; [exact Hwr|]. split; [eauto|].
    destruct Hh as [(st0 & Hl & _) | (Hl & -> & _)].
    + right. exists (h, st0). apply w_loaded_Some. exact Hl.
    + left. split; assumption.
Qed.

(** ** Teardown *)

Lemma FreeLibrary_Posix (h : Z) (w : World S) :
  w_platform w = Posix -> FreeLibrary h w = (Raised AttributeError, w).
Proof. intros Hpf. unfold FreeLibrary. rewrite Hpf. reflexivity. Qed.

Lemma FreeLibrary_fits (h : Z) (w : World S) :
  w_platform w = Windows -> 0 <= h < 2 ^ 31 ->
  exists r : Z, FreeLibrary h w = (Returned r, unload h w).
Proof.
  intros Hpf Hh. unfold FreeLibrary. rewrite Hpf.
  destruct (Z.ltb_spec h (- 2 ^ 31)); [lia|].
  destruct (Z.leb_spec (2 ^ 32) h); [lia|].
  destruct (Z.leb_spec 0 h); [|lia]. simpl. eauto.
Qed.

Lemma FreeLibrary_too_wide (h : Z) (w : World S) :
  too_wide w h -> FreeLibrary h w = (Raised ArgumentError, w).
Proof.
  intros [Hpf Hh]. unfold FreeLibrary. rewrite Hpf.
  destruct (Z.ltb_spec h (- 2 ^ 31)); [reflexivity|].
  destruct (Z.leb_spec (2 ^ 32) h); [reflexivity|lia].
Qed.

(** Whatever the unload call does, the world it leaves is the one it
    found, or that one with the modules of one handle unmapped. *)
Lemma FreeLibrary_world (h : Z) (w : World S) :
  snd (FreeLibrary h w) = w \/ snd (FreeLibrary h w) = unload h w.
Proof.
  unfold FreeLibrary. destruct (w_platform w); [|auto].
  destruct (_ || _); [auto|]. destruct (0 <=? h); auto.
Qed.

(** The teardown of a session with a library drops the library, whatever
    else happens. *)
Lemma teardown_drops_lib (self : session) (w : World S) (dll : CDLL) :
  _lib self = Some dll -> snd (fst (__del__ self w)) = set__lib None self.
Proof.
  intros Hlib. unfold __del__. rewrite Hlib.
  destruct (FreeLibrary (_handle dll) w) as [freed w1].
  destruct (_lib_path (set__lib None self)) as [path|]; [|reflexivity].
  destruct (os_remove path w1) as [[u|e|] w2]; reflexivity.
Qed.

(** The world a teardown leaves: platform and temporary directory as they
    were, no file added, and the modules either as they were or with those
    of one handle unmapped. *)
Lemma teardown_world (self : session) (w : World S) :
  w_platform (snd (__del__ self w)) = w_platform w /\
  (forall p, is_Some (w_files (snd (__del__ self w)) !! p) ->
             is_Some (w_files w !! p)) /\
  (w_modules (snd (__del__ self w)) = w_modules w \/
   exists h, _handle <$> _lib self = Some h /\
             w_modules (snd (__del__ self w)) = w_modules (unload h w)).
Proof.
  unfold __del__. destruct (_lib self) as [dll|]; [|simpl; auto].
  pose proof (FreeLibrary_world (_handle dll) w) as Hw1.
  destruct (FreeLibrary (_handle dll) w) as [freed w1]. simpl in Hw1.
  assert (Hshape : w_platform w1 = w_platform w /\ w_files w1 = w_files w /\
                   (w_modules w1 = w_modules w \/
                    w_modules w1 = w_modules (unload (_handle dll) w))).
  { destruct Hw1 as [-> | ->]; simpl; auto. }
  destruct Hshape as (Hpf & Hf & Hm). clear Hw1.
  assert (Hm' : w_modules w1 = w_modules w \/
                exists h, _handle <$> Some dll = Some h /\
                          w_modules w1 = w_modules (unload h w)).
  { destruct Hm as [Hm | Hm]; [left | right; exists (_handle dll)]; auto. }
  assert (Hgoal : forall (r : result unit) (w2 : World S),
            w_platform w2 = w_platform w1 ->
            w_modules w2 = w_modules w1 ->
            (forall p, is_Some (w_files w2 !! p) ->
                       is_Some (w_files w1 !! p)) ->
            w_platform (snd (r, set__lib None self, w2)) = w_platform w /\
            (forall p, is_Some (w_files (snd (r, set__lib None self, w2)) !! p)
                       -> is_Some (w_files w !! p)) /\
            (w_modules (snd (r, set__lib None self, w2)) = w_modules w \/
             exists h, _handle <$> Some dll = Some h /\
               w_modules (snd (r, set__lib None self, w2))
                 = w_modules (unload h w))).
  { intros r w2 H1 H2 H3. cbn [snd]. rewrite H1, H2.
    split; [exact Hpf|]. split; [|exact Hm'].
    intros p Hp. rewrite <- Hf. auto. }
  destruct (_lib_path (set__lib None self)) as [path|]; [|apply Hgoal; auto].
  unfold os_remove.
  destruct (w_files w1 !! path) as [d|] eqn:Hd; [|apply Hgoal; auto].
  assert (Hdel : forall p, is_Some (delete path (w_files w1) !! p) ->
                           is_Some (w_files w1 !! p)).
  { intros p [x Hx]. apply lookup_delete_Some in Hx. destruct Hx as [_ Hx].
    eauto. }
  destruct (w_platform w1) eqn:Hpf1, (w_modules w1 !! path);
    apply Hgoal; simpl; auto.
Qed.

(** Teardown of an open session whose handle the platform frees, step by
    step. *)
Lemma teardown_open (self : session) (w : World S) (dll : CDLL) (st : S) :
  _lib self = Some dll ->
  _lib_path self = Some (_name dll) ->
  is_Some (w_files w !! _name dll) ->
  w_loaded w !! _name dll = Some (_handle dll, st) ->
  frees w (_handle dll) ->
  __del__ self w = (Returned tt, set__lib None self, torn_down dll w).
Proof.
  intros Hlib Hpath [d Hf] Hl Hfrees.
  unfold __del__, torn_down. rewrite Hlib.
  destruct (w_platform w) eqn:Hpf.
  - destruct Hfrees as [Hp|Hh]; [congruence|].
    destruct (FreeLibrary_fits _ w Hpf Hh) as [r ->].
    simpl. rewrite Hpath. unfold os_remove. simpl. rewrite Hf, Hpf.
    assert (Hgone : filter (fun e : string * mapped S =>
                              mapped_handle (snd e) <> _handle dll)
                           (w_modules w) !! _name dll = None).
    { apply map_lookup_filter_None. right. intros m Hm.
      apply w_loaded_Some in Hl. rewrite Hl in Hm. injection Hm as <-.
      simpl. tauto. }
    rewrite Hgone. reflexivity.
  - rewrite (FreeLibrary_Posix _ w Hpf). simpl. rewrite Hpath.
    unfold os_remove. rewrite Hf, Hpf. reflexivity.
Qed.

(** Teardown of an open session whose handle the unload call refuses: the
    module stays mapped, so its file cannot be deleted. *)
Lemma teardown_stuck (self : session) (w : World S) (dll : CDLL) :
  _lib self = Some dll ->
  _lib_path self = Some (_name dll) ->
  is_Some (w_files w !! _name dll) ->
  is_Some (w_modules w !! _name dll) ->
  too_wide w (_handle dll) ->
  __del__ self w = (Raised PermissionError, set__lib None self, w).
Proof.
  intros Hlib Hpath [d Hf] [m Hm] Hwide.
  unfold __del__. rewrite Hlib, (FreeLibrary_too_wide _ w Hwide).
  simpl. rewrite Hpath. unfold os_remove.
  rewrite Hf, (proj1 Hwide), Hm. reflexivity.
Qed.


(** ** Isolation *)

(** What a method returns depends on the world only through the module
    behind the session's own library. *)
Lemma exec_agree {A : Type} (q : prog A) (self : session) (w1 w2 : World S) :
  (forall dll, _lib self = Some dll ->
     w_modules w1 !! _name dll = w_modules w2 !! _name dll) ->
  fst (exec q self w1) = fst (exec q self w2).
Proof.
  revert w1 w2. induction q as [a|e|c k IH]; intros w1 w2 Hagree;
    try reflexivity.
  simpl. destruct (_lib self) as [dll|] eqn:Hlib; [|reflexivity].
  rewrite <- (Hagree dll eq_refl).
  destruct (w_modules w1 !! _name dll) as [[h st|h missing also st]|];
    [| |reflexivity].
  - destruct (decide (h = _handle dll)); [|reflexivity].
    destruct (lib_call c st) as [r st'].
    apply IH. intros dll' [= <-]. simpl.
    rewrite !lookup_insert_eq. reflexivity.
  - destruct (decide (h = _handle dll)); [|reflexivity].
    destruct (lacks missing also (entry_name c)); [reflexivity|].
    destruct (lib_call c st) as [r st'].
    apply IH. intros dll' [= <-]. simpl.
    rewrite !lookup_insert_eq. reflexivity.
Qed.

(** A method call changes no module's path, kind or handle. *)
Lemma exec_keeps_handles {A : Type} (q : prog A) (self : session)
      (w : World S) (p : string) (h : Z) :
  (exists st, w_loaded (snd (exec q self w)) !! p = Some (h, st)) <->
  (exists st, w_loaded w !! p = Some (h, st)).
Proof.
  revert w. induction q as [a|e|c k IH]; intros w; try reflexivity.
  simpl. destruct (_lib self) as [dll|]; [|reflexivity].
  destruct (w_modules w !! _name dll) as [[h0 st0|h0 missing also st0]|] eqn:Hm;
    [| |reflexivity].
  - destruct (decide (h0 = _handle dll)); [|reflexivity].
    destruct (lib_call c st0) as [r st'].
    rewrite IH. setoid_rewrite w_loaded_Some. simpl.
    destruct (decide (p = _name dll)) as [->|Hne].
    + rewrite lookup_insert_eq, Hm. split; intros [st Hst];
        injection Hst as <- _; eauto.
    + rewrite lookup_insert_ne by congruence. reflexivity.
  - destruct (decide (h0 = _handle dll)); [|reflexivity].
    destruct (lacks missing also (entry_name c)); [reflexivity|].
    destruct (lib_call c st0) as [r st'].
    rewrite IH. setoid_rewrite w_loaded_Some. simpl.
    destruct (decide (p = _name dll)) as [->|Hne].
    + rewrite lookup_insert_eq, Hm. split; intros [st Hst]; discriminate.
    + rewrite lookup_insert_ne by congruence. reflexivity.
Qed.

(** Tearing one session down, however that ends, leaves another open
    session open, with its module untouched, when their paths and handles
    differ. *)
Lemma teardown_spares (s1 s2 : session) (w : World S) (d2 : CDLL) :
  is_open s2 w ->
  _lib s2 = Some d2 ->
  _lib_path s1 <> Some (_name d2) ->
  (forall d1, _lib s1 = Some d1 -> _handle d1 <> _handle d2) ->
  is_open s2 (snd (__del__ s1 w)) /\
  w_modules (snd (__del__ s1 w)) !! _name d2 = w_modules w !! _name d2.
Proof.
  intros (dll2 & st2 & Hlib2 & Hpath2 & Hf2 & Hl2) Hd2 Hn Hh.
  rewrite Hd2 in Hlib2. injection Hlib2 as <-.
  apply w_loaded_Some in Hl2.
  assert (Hmod : w_modules (snd (__del__ s1 w)) !! _name d2
                 = Some (Solver (_handle d2) st2)).
  { destruct (teardown_world s1 w) as (_ & _ & [-> | (h & Hh1 & ->)]);
      [exact Hl2|].
    apply unload_lookup. split; [exact Hl2|]. simpl.
    destruct (_lib s1) as [d1|]; [|discriminate].
    injection Hh1 as <-. intros Heq. exact (Hh d1 eq_refl (eq_sym Heq)). }
  split; [|rewrite Hmod, Hl2; reflexivity].
  exists d2, st2. split; [exact Hd2|]. split; [exact Hpath2|].
  split; [|apply w_loaded_Some; exact Hmod].
  unfold __del__. destruct (_lib s1) as [d1|]; [|exact Hf2].
  pose proof (FreeLibrary_world (_handle d1) w) as Hw1.
  destruct (FreeLibrary (_handle d1) w) as [freed w1]. simpl in Hw1.
  assert (Hf1 : w_files w1 = w_files w) by (destruct Hw1 as [-> | ->]; reflexivity).
  cbn [_lib_path set__lib].
  destruct (_lib_path s1) as [path|]; [|simpl; rewrite Hf1; exact Hf2].
  unfold os_remove.
  destruct (w_files w1 !! path); [|simpl; rewrite Hf1; exact Hf2].
  destruct (w_platform w1), (w_modules w1 !! path); simpl;
    rewrite ?lookup_delete_ne by congruence; rewrite Hf1; exact Hf2.
Qed.

(** Handles stay distinct through construction, method calls and
    teardown. *)
Lemma distinct_handles_new (p ext : string) (w w' : World S) (s : session) :
  fresh_names -> fresh_handles -> distinct_handles w ->
  new p ext w = (Returned s, w') -> distinct_handles w'.
Proof.
  intros Hnames Hhandles Hinj Hnew.
  destruct (new_Returned p ext w w' s Hnames Hnew)
    as (d & h & st & _ & _ & _ & -> & Hh).
  set (name := mktemp ext (dom (w_files w))) in *.
  assert (Hother : forall q st', q <> name ->
            w_loaded w !! q = Some (h, st') -> False).
  { intros q st' Hq Hlq. destruct Hh as [(st0 & Hst0 & _) | (_ & _ & Hnewh & _)].
    - apply Hq. apply w_loaded_Some in Hst0. exact (Hinj _ _ _ _ _ Hlq Hst0).
    - apply (Hhandles (handles w)). rewrite <- Hnewh.
      apply w_loaded_Some in Hlq.
      exact (elem_of_handles _ _ _ Hlq). }
  intros p1 p2 h' st1 st2. rewrite w_loaded_insert.
  change (omap solver_part (w_modules w)) with (w_loaded w).
  destruct (decide (p1 = name)) as [->|H1], (decide (p2 = name)) as [->|H2];
    rewrite ?lookup_insert_eq, ?lookup_insert_ne by congruence.
  - reflexivity.
  - intros [= <- _] H. destruct (Hother _ _ H2 H).
  - intros H [= <- _]. destruct (Hother _ _ H1 H).
  - apply Hinj.
Qed.

Lemma distinct_handles_exec {A : Type} (q : prog A) (self : session) (w : World S) :
  distinct_handles w -> distinct_handles (snd (exec q self w)).
Proof.
  intros Hinj p1 p2 h st1 st2 H1 H2.
  destruct (proj1 (exec_keeps_handles q self w p1 h) (ex_intro _ st1 H1))
    as [st1' H1'].
  destruct (proj1 (exec_keeps_handles q self w p2 h) (ex_intro _ st2 H2))
    as [st2' H2'].
  exact (Hinj _ _ _ _ _ H1' H2').
Qed.

Lemma distinct_handles_teardown (self : session) (w : World S) :
  distinct_handles w -> distinct_handles (snd (__del__ self w)).
Proof.
  intros Hinj p1 p2 h st1 st2.
  rewrite !w_loaded_Some.
  destruct (teardown_world self w) as (_ & _ & [-> | (h0 & _ & ->)]).
  - rewrite <- !w_loaded_Some. apply Hinj.
  - rewrite !unload_lookup, <- !w_loaded_Some.
    intros [H1 _] [H2 _]. exact (Hinj _ _ _ _ _ H1 H2).
Qed.

(** C6: in a world where a session is open, a second session constructed
    meanwhile loads from a temporary file of its own, new and a copy of
    the canonical one, under a different path and a different handle;
    both are open afterwards.  Tearing either one down, whether that
    returns or raises, leaves the other open, every method returning on it
    what it returned before; and it returns where the platform frees the
    handle, while on Windows with a handle of more than 32 bits it raises
    [PermissionError] and changes nothing. *)
Theorem sessions_isolated (p ext : string) (w w' : World S) (s1 s2 : session) :
  fresh_names -> fresh_handles -> distinct_handles w ->
  is_open s1 w ->
  new p ext w = (Returned s2, w') ->
  (forall path, _lib_path s2 = Some path ->
     w_files w !! path = None /\ w_files w' !! path = w_files w !! p) /\
  _lib_path s1 <> _lib_path s2 /\
  (forall d1 d2, _lib s1 = Some d1 -> _lib s2 = Some d2 ->
     _handle d1 <> _handle d2) /\
  is_open s1 w' /\ is_open s2 w' /\
  (is_open s2 (snd (__del__ s1 w')) /\
   (forall (A : Type) (q : prog A),
      fst (exec q s2 (snd (__del__ s1 w'))) = fst (exec q s2 w')) /\
   forall d1, _lib s1 = Some d1 ->
     (frees w' (_handle d1) -> fst (fst (__del__ s1 w')) = Returned tt) /\
     (too_wide w' (_handle d1) ->
        fst (fst (__del__ s1 w')) = Raised PermissionError /\
        snd (__del__ s1 w') = w')) /\
  (is_open s1 (snd (__del__ s2 w')) /\
   (forall (A : Type) (q : prog A),
      fst (exec q s1 (snd (__del__ s2 w'))) = fst (exec q s1 w')) /\
   forall d2, _lib s2 = Some d2 ->
     (frees w' (_handle d2) -> fst (fst (__del__ s2 w')) = Returned tt) /\
     (too_wide w' (_handle d2) ->
        fst (fst (__del__ s2 w')) = Raised PermissionError /\
        snd (__del__ s2 w') = w')).
Proof.
  intros Hnames Hhandles Hinj Ho1 Hnew.
  pose proof (new_is_open _ _ _ _ _ Hnames Hnew) as [Ho2 _].
  destruct (new_Returned p ext w w' s2 Hnames Hnew)
    as (d & h & st & _ & Hp & Hs2 & Hw' & Hh).
  set (name := mktemp ext (dom (w_files w))) in *.
  destruct Ho1 as (dll1 & st1 & Hlib1 & Hpath1 & Hf1 & Hl1).
  assert (Hname : w_files w !! name = None).
  { apply not_elem_of_dom. apply Hnames. }
  assert (Hn : _name dll1 <> name).
  { intros Heq. rewrite Heq, Hname in Hf1. destruct Hf1; discriminate. }
  assert (Hm1 : w_modules w !! _name dll1 = Some (Solver (_handle dll1) st1))
    by (apply w_loaded_Some; exact Hl1).
  assert (Hhd : _handle dll1 <> h).
  { intros Heq. destruct Hh as [(st0 & Hst0 & _) | (_ & _ & Hnewh & _)].
    - apply Hn. rewrite <- Heq in Hst0. apply w_loaded_Some in Hst0.
      exact (Hinj _ _ _ _ _ Hl1 Hst0).
    - apply (Hhandles (handles w)). rewrite <- Hnewh, <- Heq.
      exact (elem_of_handles _ _ _ Hm1). }
  assert (Ho1' : is_open s1 w').
  { exists dll1, st1. repeat split; try assumption.
    - rewrite Hw'. simpl. rewrite lookup_insert_ne by congruence. exact Hf1.
    - apply w_loaded_Some. rewrite Hw'. simpl.
      rewrite lookup_insert_ne by congruence. exact Hm1. }
  assert (Hlib2 : _lib s2 = Some {| _name := name; _handle := h |})
    by (rewrite Hs2; reflexivity).
  assert (Hpath2 : _lib_path s2 = Some name) by (rewrite Hs2; reflexivity).
  assert (Hend : forall (s : session) (dll : CDLL),
            is_open s w' -> _lib s = Some dll ->
            (frees w' (_handle dll) ->
               fst (fst (__del__ s w')) = Returned tt) /\
            (too_wide w' (_handle dll) ->
               fst (fst (__del__ s w')) = Raised PermissionError /\
               snd (__del__ s w') = w')).
  { intros s dll (dll' & st' & Hlib & Hpath & Hf & Hl) Hdll.
    rewrite Hlib in Hdll. injection Hdll as ->. split.
    - intros Hfrees.
      rewrite (teardown_open _ _ _ _ Hlib Hpath Hf Hl Hfrees). reflexivity.
    - intros Hwide. rewrite (teardown_stuck _ _ _ Hlib Hpath Hf);
        [split; reflexivity | | exact Hwide].
      apply w_loaded_Some in Hl. eauto. }
  split.
  { intros path Hpath. rewrite Hpath2 in Hpath. injection Hpath as <-.
    split; [exact Hname|]. rewrite Hw'. simpl.
    rewrite lookup_insert_eq, Hp. reflexivity. }
  split; [rewrite Hpath1, Hpath2; congruence|].
  split; [intros d1 d2 H1 H2; rewrite Hlib1 in H1; rewrite Hlib2 in H2;
          injection H1 as <-; injection H2 as <-; exact Hhd|].
  split; [exact Ho1'|]. split; [exact Ho2|]. split.
  - destruct (teardown_spares s1 s2 w' _ Ho2 Hlib2) as [Ho Hsame].
    { rewrite Hpath1. simpl. congruence. }
    { intros d1 Hd1. rewrite Hlib1 in Hd1. injection Hd1 as <-. exact Hhd. }
    split; [exact Ho|]. split.
    + intros A q. apply exec_agree. intros dll Hdll.
      rewrite Hlib2 in Hdll. injection Hdll as <-. exact Hsame.
    + intros d1 Hd1. exact (Hend s1 d1 Ho1' Hd1).
  - destruct (teardown_spares s2 s1 w' _ Ho1' Hlib1) as [Ho Hsame].
    { rewrite Hpath2. congruence. }
    { intros d2 Hd2. rewrite Hlib2 in Hd2. injection Hd2 as <-.
      simpl. congruence. }
    split; [exact Ho|]. split.
    + intros A q. apply exec_agree. intros dll Hdll.
      rewrite Hlib1 in Hdll. injection Hdll as <-. exact Hsame.
    + intros d2 Hd2. exact (Hend s2 d2 Ho2 Hd2).
Qed.

End SessionProperties.
(** ** The sample instances at work *)

Section SampleFacts.

Import XRotor.

Lemma length_append (s1 s2 : string) :
  String.length (s1 +:+ s2) = (String.length s1 + String.length s2)%nat.
Proof. induction s1 as [|a s1 IH]; simpl; [reflexivity | rewrite IH; reflexivity]. Defined.

Lemma length_padding (n : nat) : String.length (Sample.padding n) = n.
Proof. induction n as [|n IH]; simpl; [reflexivity | rewrite IH; reflexivity]. Defined.

Lemma longest_ge (l : list string) (s : string) :
  s ∈ l -> (String.length s <= Sample.longest l)%nat.
Proof.
  induction l as [|x l IH]; intros Hin.
  - inversion Hin.
  - apply elem_of_cons in Hin. simpl. destruct Hin as [-> | Hin].
    + apply Nat.le_max_l.
    + etransitivity; [apply IH, Hin | apply Nat.le_max_r].
Defined.

(** The sample oracles never pick an existing name or a handle in use. *)
Lemma sample_fresh_names : fresh_names (O := Sample.oracle).
Proof.
  intros suffix X Hin. apply elem_of_elements, longest_ge in Hin.
  simpl in Hin. unfold Sample.tmp_name in Hin.
  rewrite !length_append, length_padding in Hin. simpl in Hin. lia.
Defined.

Lemma sample_fresh_handles : fresh_handles (O := Sample.oracle).
Proof. intros X. apply is_fresh. Defined.

Lemma high_fresh_names : fresh_names (O := Sample.high_oracle).
Proof. exact sample_fresh_names. Defined.

Lemma high_fresh_handles : fresh_handles (O := Sample.high_oracle).
Proof.
  intros X Hin. simpl in Hin. unfold Sample.high_handle in Hin.
  apply (is_fresh (set_map (fun h : Z => h - 2 ^ 47) X : gset Z)).
  apply elem_of_map. eexists. split; [|exact Hin]. lia.
Defined.

Lemma sample_world_distinct (pf : platform) :
  distinct_handles (Sample.world pf).
Proof.
  intros p1 p2 h st1 st2 H1. apply w_loaded_Some in H1. simpl in H1.
  rewrite lookup_empty in H1. discriminate.
Defined.

Lemma sample_accepts_roundtrip (s : Sample.state) (n : Z) :
  Sample.accepts n ->
  fst (lib_call (XRotorLib := Sample.library 0) Lib.get_max_iter
         (snd (lib_call (XRotorLib := Sample.library 0)
                 (Lib.set_max_iter (byref (C_int n))) s))) = n.
Proof.
  intros [H1 H2]. simpl. unfold Sample.store_max_iter.
  destruct (Z.leb_spec 1 n); [|lia].
  destruct (Z.leb_spec n 1000); [|lia]. reflexivity.
Defined.

End SampleFacts.

(** The round trip of C7 on the sample library, for the limit 25. *)
Lemma max_iter_roundtrip_witness :
  exists st' : Sample.state,
    run (L := Sample.library 0)
        (XRotor.set_max_iter 25;;; XRotor.max_iter) Sample.fresh_state
    = (Returned 25, st',
       [Lib.set_max_iter (byref (C_int 25)); Lib.get_max_iter]).
Proof.
  refine (proj1 (max_iter_roundtrip (L := Sample.library 0) Sample.accepts
                   Sample.fresh_state 25 sample_accepts_roundtrip _ _ _)).
  - lia.
  - lia.
  - unfold Sample.accepts. lia.
Defined.

(** The station pull of C8 on the sample library, which has three stations. *)
Lemma station_conditions_witness :
  exists (xi re : ndarray) (st' : Sample.state),
    run (L := Sample.library 0) XRotor.station_conditions Sample.fresh_state
      = (Returned (xi, re), st',
         [Lib.get_number_of_stations;
          Lib.get_station_conditions (byref (C_int 3))
            (data_as_fptr (zeros 3)) (data_as_fptr (zeros 3))]) /\
    nd_shape xi = [3%nat] /\ nd_shape re = [3%nat] /\
    length (nd_mem xi) = 3%nat /\ length (nd_mem re) = 3%nat.
Proof.
  refine (station_conditions_two_step (L := Sample.library 0)
            Sample.fresh_state _).
  simpl. lia.
Defined.

(** The arrays of the sample case as they are pushed: the geometry array,
    row-major in the case, goes out column-major. *)
Lemma case_push_sample :
  nth 13 (XRotor.case_args Sample.a_case) null
    = data_as_fptr {| nd_dtype := float32; nd_shape := [2; 1]%nat;
                      nd_order := F_order; nd_mem := [0; 6]%float |} /\
  nth 14 (XRotor.case_args Sample.a_case) null
    = data_as_fptr {| nd_dtype := float32; nd_shape := [2; 3]%nat;
                      nd_order := F_order;
                      nd_mem := [1; 4; 2; 5; 3; 6]%float |}.
Proof. split; reflexivity. Qed.


(** C5, on the sample machine with a library whose [init] answers 1:
    construction returns an open session. *)
Lemma construction_witness :
  exists (s : session) (w' : World Sample.state),
    Sample.first_open Posix 1 = (Returned s, w') /\
    is_open s w' /\ _case s = None.
Proof.
  refine (proj1 (proj2 (proj2 (proj2 (proj2
            (construction_outcome (L := Sample.library 1) (O := Sample.oracle)
               [Sample.canonical] (Sample.world Posix) sample_fresh_names)))))
            _).
  split; [reflexivity|]. split; [exists SharedLibrary; reflexivity|].
  left. split; reflexivity.
Defined.

(** C5 as stated fails: the library's [init] answers the failure status 1
    and the constructor returns the session all the same. *)
Lemma init_failure_goes_unnoticed :
  fst (lib_call (XRotorLib := Sample.library 1) Lib.init Sample.fresh_state) = 1 /\
  fst (Sample.first_open Posix 1)
    = Returned
        {| _lib := Some {| _name := "/tmp/tmpxxxxxxxxxxxxxxxxxxxxxxxxx.so";
                           _handle := 0 |};
           _lib_path := Some "/tmp/tmpxxxxxxxxxxxxxxxxxxxxxxxxx.so";
           _case := None |}.
Proof. split; vm_compute; reflexivity. Qed.

(** Construction from a library without [get_rms]: the lookup of that
    entry point raises, with the library mapped and the object holding
    it. *)
Lemma construction_from_stub :
  let r := __init__ (L := Sample.library 0) (O := Sample.oracle)
             Sample.canonical (lib_ext Sample.canonical) blank
             (Sample.stub_world Posix) in
  fst (fst r) = Raised AttributeError /\
  _lib (snd (fst r))
    = Some {| _name := "/tmp/tmpxxxxxxxxxxxxxxxxxxxxxxxxx.so"; _handle := 0 |} /\
  w_modules (snd r) !! "/tmp/tmpxxxxxxxxxxxxxxxxxxxxxxxxx.so"
    = Some (Stub 0 at_get_rms [] Sample.fresh_state).
Proof. vm_compute. repeat split. Qed.

Lemma first_open_is_open (pf : platform) (status : Z) :
  is_open (Sample.session_of (Sample.first_open pf status))
          (snd (Sample.first_open pf status)).
Proof.
  destruct (new_succeeds (L := Sample.library status) (O := Sample.oracle)
              Sample.canonical (lib_ext Sample.canonical) (Sample.world pf)
              sample_fresh_names eq_refl
              (ex_intro _ SharedLibrary eq_refl)
              (or_introl (conj eq_refl eq_refl)))
    as (s & w' & Hnew).
  pose proof (new_is_open _ _ _ _ _ sample_fresh_names Hnew) as [Ho _].
  unfold Sample.first_open, open, lib_path, Sample.session_of.
  rewrite Hnew. exact Ho.
Defined.



(** A session on a Windows machine whose loader maps modules above
    [2 ^ 32]: the teardown raises and leaves the module and its file. *)
Lemma teardown_wide_handle :
  let r := open (L := Sample.library 0) (O := Sample.high_oracle)
             [Sample.canonical] (Sample.world Windows) in
  _handle <$> _lib (Sample.session_of r) = Some (2 ^ 47) /\
  __del__ (Sample.session_of r) (snd r)
    = (Raised PermissionError, set__lib None (Sample.session_of r), snd r).
Proof. vm_compute. split; reflexivity. Qed.

(** C6, on the sample machine: two sessions constructed one after the
    other, both open, each one still open after the other's teardown,
    which returns. *)
Lemma sessions_isolated_witness :
  let s1 := Sample.session_of (Sample.first_open Posix 0) in
  let s2 := Sample.session_of (Sample.second_open Posix 0) in
  let w' := snd (Sample.second_open Posix 0) in
  _lib_path s1 <> _lib_path s2 /\
  (forall d1 d2, _lib s1 = Some d1 -> _lib s2 = Some d2 ->
     _handle d1 <> _handle d2) /\
  is_open s1 w' /\ is_open s2 w' /\
  is_open s2 (snd (__del__ s1 w')) /\
  is_open s1 (snd (__del__ s2 w')) /\
  fst (fst (__del__ s1 w')) = Returned tt.
Proof.
  intros s1 s2 w'.
  destruct (sessions_isolated (L := Sample.library 0) (O := Sample.oracle)
              Sample.canonical (lib_ext Sample.canonical)
              (snd (Sample.first_open Posix 0)) w' s1 s2
              sample_fresh_names sample_fresh_handles)
    as (_ & Hpaths & Hhandles & Ho1 & Ho2 & (Hs2 & _ & Hend) & (Hs1 & _)).
  - refine (distinct_handles_new (L := Sample.library 0) (O := Sample.oracle)
              Sample.canonical (lib_ext Sample.canonical)
              (Sample.world Posix) _ s1
              sample_fresh_names sample_fresh_handles
              (sample_world_distinct Posix) _).
    vm_compute. reflexivity.
  - exact (first_open_is_open Posix 0).
  - vm_compute. reflexivity.
  - repeat (split; [assumption|]).
    assert (Hlib1 : _lib s1
                    = Some {| _name := "/tmp/tmpxxxxxxxxxxxxxxxxxxxxxxxxx.so";
                              _handle := 0 |})
      by (vm_compute; reflexivity).
    assert (Hpf : w_platform w' = Posix) by (vm_compute; reflexivity).
    exact (proj1 (Hend _ Hlib1) (or_introl Hpf)).
Defined.
(** * Further properties of the facade *)

(** ** [operate]: what is refused and what is called *)

Section OperateOutcomes.

Import XRotor.

(** X1: thrust given together with torque, power or both is refused with
    the message of its combination, whatever [rpm] is, and on any session
    in any world the refusal leaves the world as it was. *)
Theorem operate_thrust_excludes {S : Type} {L : XRotorLib S}
        (thrust torque power : float) (rpm : option float)
        (self : session) (w : World S) :
  operate (Some thrust) (Some torque) (Some power) rpm
    = Raise (ValueError "Thrust, torque, and power cannot be specified simultaneously.") /\
  operate (Some thrust) (Some torque) None rpm
    = Raise (ValueError "Thrust and torque cannot be specified simultaneously.") /\
  operate (Some thrust) None (Some power) rpm
    = Raise (ValueError "Thrust and power cannot be specified simultaneously.") /\
  snd (exec (operate (Some thrust) (Some torque) (Some power) rpm) self w) = w /\
  snd (exec (operate (Some thrust) (Some torque) None rpm) self w) = w /\
  snd (exec (operate (Some thrust) None (Some power) rpm) self w) = w.
Proof. repeat split; reflexivity. Qed.

(** X2: against any library, [operate] either is refused, raising
    [ValueError] with no call and the library's state untouched, or returns:
    the pair exactly when rpm is given besides a primary target, after two
    calls, the residual alone after one call; the first call is always the
    solve, with a mode from 1 to 4. *)
Theorem operate_outcomes {S : Type} {L : XRotorLib S}
        (thrust torque power rpm : option float) (st : S) :
  if refused thrust torque power rpm then
    exists msg : string,
      run (operate thrust torque power rpm) st = (Raised (ValueError msg), st, [])
  else
    exists (res : operate_result) (st' : S) (tr : list Lib.call),
      run (operate thrust torque power rpm) st = (Returned res, st', tr) /\
      is_pair res = rpm_constrained thrust torque power rpm /\
      length tr = (if rpm_constrained thrust torque power rpm then 2 else 1)%nat /\
      exists (m : Z) (v sel r : carg),
        head tr = Some (Lib.operate (byref (C_int m)) v sel r) /\ 1 <= m <= 4.
Proof.
  destruct thrust, torque, power, rpm; cbn;
    try (eexists; reflexivity);
    repeat match goal with
           | |- context [lib_call ?c ?s] => destruct (lib_call c s)
           end;
    cbn; eexists _, _, _; (split; [reflexivity|]);
    repeat split; eexists _, _, _, _; (split; [reflexivity|]);
    vm_compute; split; intros Hcmp; discriminate Hcmp.
Qed.

End OperateOutcomes.

(** ** The extension of the canonical file *)

Section Extension.

Lemma rfind_from_absent (c : Ascii.ascii) (s : string) (i : Z) :
  occurs c s = false -> rfind_from c s i = -1.
Proof.
  revert i. induction s as [|a s IH]; intros i Hno; simpl in *.
  - reflexivity.
  - apply orb_false_iff in Hno. destruct Hno as [Ha Hs].
    rewrite (IH (i + 1) Hs), Ha. reflexivity.
Qed.

(** The last occurrence: nothing of [c] after it. *)
Lemma rfind_from_last (c : Ascii.ascii) (s1 s2 : string) (i : Z) :
  0 <= i -> occurs c s2 = false ->
  rfind_from c (s1 +:+ String c s2) i = i + Z.of_nat (String.length s1).
Proof.
  revert i. induction s1 as [|a s1 IH]; intros i Hi Hno; simpl.
  - rewrite (rfind_from_absent c s2 (i + 1) Hno). simpl.
    rewrite Ascii.eqb_refl. lia.
  - rewrite (IH (i + 1)) by (lia || assumption).
    destruct (Z.leb_spec 0 (i + 1 + Z.of_nat (String.length s1))); lia.
Qed.

Lemma drop_chars_append (s1 s2 : string) :
  drop_chars (String.length s1) (s1 +:+ s2) = s2.
Proof. induction s1 as [|a s1 IH]; simpl; [destruct s2; reflexivity | exact IH]. Qed.

Lemma length_append_Z (s1 s2 : string) :
  String.length (s1 +:+ s2) = (String.length s1 + String.length s2)%nat.
Proof. induction s1 as [|a s1 IH]; simpl; [reflexivity | rewrite IH; reflexivity]. Qed.

(** X3: the extension is the text from the last dot on: for a path that
    ends in a dot followed by dot-free text, [lib_ext] is that dot and
    text, whatever dots the part before holds. *)
Theorem lib_ext_from_last_dot (stem ext : string) :
  occurs "."%char ext = false ->
  lib_ext (stem +:+ String "."%char ext) = String "."%char ext.
Proof.
  intros Hno. unfold lib_ext, rfind.
  rewrite (rfind_from_last "."%char stem ext 0) by (lia || assumption).
  unfold slice_from. rewrite length_append_Z. simpl String.length.
  destruct (Z.ltb_spec (0 + Z.of_nat (String.length stem)) 0) as [Hneg|_]; [lia|].
  rewrite Z.min_l by lia.
  replace (Z.to_nat (0 + Z.of_nat (String.length stem)))
    with (String.length stem) by lia.
  apply drop_chars_append.
Qed.

End Extension.

(** X3 on a versioned library name. *)
Lemma lib_ext_witness :
  lib_ext ("/opt/x.y/libxrotor.so" +:+ String "."%char "1") = String "."%char "1".
Proof. apply lib_ext_from_last_dot. reflexivity. Defined.

(** ** Iteration limit and station pull at their bounds *)

Section Bounds.

Import XRotor.

Lemma wrap_int_period (v k : Z) : wrap_int (v + k * 2 ^ 32) = wrap_int v.
Proof.
  unfold wrap_int.
  replace (v + k * 2 ^ 32 + 2 ^ 31) with (v + 2 ^ 31 + k * 2 ^ 32) by lia.
  rewrite Z_mod_plus_full. reflexivity.
Qed.

Lemma wrap_int_congruent (v : Z) : (wrap_int v - v) mod 2 ^ 32 = 0.
Proof.
  unfold wrap_int.
  pose proof (Z_div_mod_eq_full (v + 2 ^ 31) (2 ^ 32)) as Hdm.
  replace ((v + 2 ^ 31) mod 2 ^ 32 - 2 ^ 31 - v)
    with (0 + - ((v + 2 ^ 31) / 2 ^ 32) * 2 ^ 32) by lia.
  rewrite Z_mod_plus_full. reflexivity.
Qed.

(** X6: the [max_iter] setter never refuses a value: an integer outside the
    native range is passed wrapped into it, so values that differ by a
    multiple of [2 ^ 32] give the same call. *)
Theorem set_max_iter_wraps (v k : Z) :
  set_max_iter (v + k * 2 ^ 32) = set_max_iter v /\
  exists n : Z,
    set_max_iter v
      = Call (Lib.set_max_iter (byref (C_int n))) (fun _ => Ret tt) /\
    - 2 ^ 31 <= n < 2 ^ 31 /\ (n - v) mod 2 ^ 32 = 0.
Proof.
  split.
  - unfold set_max_iter, c_int. rewrite wrap_int_period. reflexivity.
  - exists (wrap_int v). split; [reflexivity|].
    split; [apply wrap_int_range | apply wrap_int_congruent].
Qed.

Context {S : Type} {L : XRotorLib S}.

(** X4: when the library reports a negative station count, the pull raises
    [ValueError] after that one query: no buffer is built and no pairs are
    requested. *)
Theorem station_conditions_negative_count (st : S) :
  fst (lib_call Lib.get_number_of_stations st) < 0 ->
  run station_conditions st
    = (Raised (ValueError "negative dimensions are not allowed"),
       snd (lib_call Lib.get_number_of_stations st),
       [Lib.get_number_of_stations]).
Proof.
  intros Hneg. unfold station_conditions, call. simpl.
  destruct (lib_call Lib.get_number_of_stations st) as [n st1]. simpl in *.
  destruct (Z.ltb_spec n 0) as [_|Hge]; [reflexivity | lia].
Qed.

Lemma lookup_repeat {A : Type} (x : A) (n i : nat) :
  (i < n)%nat -> repeat x n !! i = Some x.
Proof.
  revert i. induction n as [|n IH]; intros i Hi; [lia|].
  destruct i as [|i]; simpl; [reflexivity | apply IH; lia].
Qed.

(** X5: in the arrays the station pull returns, every element is the value
    the library stored at that index, and zero where it stored none; the
    arrays are single-precision and column-major. *)
Theorem station_conditions_elements (st : S) (i : nat) :
  let n := fst (lib_call Lib.get_number_of_stations st) in
  let st1 := snd (lib_call Lib.get_number_of_stations st) in
  let w := fst (lib_call (Lib.get_station_conditions (byref (C_int n))
                            (data_as_fptr (zeros (Z.to_nat n)))
                            (data_as_fptr (zeros (Z.to_nat n)))) st1) in
  0 <= n < 2 ^ 31 -> (i < Z.to_nat n)%nat ->
  exists xi re : ndarray,
    fst (fst (run station_conditions st)) = Returned (xi, re) /\
    nd_mem xi !! i = Some (default 0%float (fst w i)) /\
    nd_mem re !! i = Some (default 0%float (snd w i)) /\
    nd_dtype xi = float32 /\ nd_dtype re = float32 /\
    nd_order xi = F_order /\ nd_order re = F_order.
Proof.
  intros n st1 w Hn Hi. subst n st1 w.
  unfold station_conditions, call. simpl.
  destruct (lib_call Lib.get_number_of_stations st) as [m st1]. simpl in *.
  destruct (Z.ltb_spec m 0) as [Hneg|_]; [lia|]. simpl.
  unfold c_int. rewrite wrap_int_small by lia.
  destruct (lib_call (Lib.get_station_conditions (byref (C_int m))
              (data_as_fptr (zeros (Z.to_nat m)))
              (data_as_fptr (zeros (Z.to_nat m)))) st1) as [w st2].
  simpl. eexists _, _. split; [reflexivity|]. simpl.
  rewrite !list_lookup_imap, !lookup_repeat by exact Hi.
  repeat split; reflexivity.
Qed.

End Bounds.

(** X4 on a library that reports the count -1. *)
Lemma station_conditions_negative_witness :
  run (L := Faulty.library (-1)) XRotor.station_conditions Sample.fresh_state
    = (Raised (ValueError "negative dimensions are not allowed"),
       Sample.fresh_state, [Lib.get_number_of_stations]).
Proof.
  refine (station_conditions_negative_count (L := Faulty.library (-1))
            Sample.fresh_state _).
  simpl. lia.
Defined.

(** X5 on the sample library, whose three stations are all written. *)
Lemma station_conditions_elements_witness :
  exists xi re : ndarray,
    fst (fst (run (L := Sample.library 0) XRotor.station_conditions
                  Sample.fresh_state)) = Returned (xi, re) /\
    nd_mem xi !! 2%nat = Some 0.5%float /\
    nd_mem re !! 2%nat = Some 1000%float /\
    nd_dtype xi = float32 /\ nd_dtype re = float32 /\
    nd_order xi = F_order /\ nd_order re = F_order.
Proof.
  refine (station_conditions_elements (L := Sample.library 0)
            Sample.fresh_state 2 _ _).
  - simpl. lia.
  - simpl. lia.
Defined.

(** ** Sessions: methods, construction and teardown together *)

Section SessionLife.

Context {S : Type} {L : XRotorLib S} {O : Oracle}.

(** X8: a method called on an open session returns what it returns on the
    session's own module and never crashes; it stores the module's new
    state and changes nothing else: the files, the platform and every other
    loaded module stay as they were, and the session stays open. *)
Theorem method_call_frame {A : Type} (q : prog A) (self : session)
        (w : World S) :
  is_open self w ->
  exists (dll : CDLL) (st : S),
    _lib self = Some dll /\
    w_loaded w !! _name dll = Some (_handle dll, st) /\
    fst (exec q self w) = fst (fst (run q st)) /\
    fst (exec q self w) <> Crashed /\
    w_files (snd (exec q self w)) = w_files w /\
    w_platform (snd (exec q self w)) = w_platform w /\
    w_loaded (snd (exec q self w)) !! _name dll
      = Some (_handle dll, snd (fst (run q st))) /\
    (forall path : string, path <> _name dll ->
       w_loaded (snd (exec q self w)) !! path = w_loaded w !! path) /\
    is_open self (snd (exec q self w)).
Proof.
  intros (dll & st & Hlib & Hpath & Hf & Hl).
  exists dll, st.
  destruct (exec_run q self w dll st Hlib Hl) as (Hr & Hpf & Hfiles & Hloaded).
  rewrite Hr, Hpf, Hfiles, Hloaded.
  split; [exact Hlib|]. split; [exact Hl|]. split; [reflexivity|].
  split; [apply run_not_Crashed|]. split; [reflexivity|].
  split; [reflexivity|]. split; [apply lookup_insert_eq|]. split.
  - intros path Hne. apply lookup_insert_ne. congruence.
  - exists dll, (snd (fst (run q st))).
    split; [exact Hlib|]. split; [exact Hpath|].
    split; [rewrite Hfiles; exact Hf|].
    rewrite Hloaded. apply lookup_insert_eq.
Qed.

(** X9: once an open session is torn down, every method that reaches the
    library raises [AttributeError] and leaves the world as it is;
    [operate] still refuses bad arguments first, and the [case] setter
    still records the case on the object before it raises. *)
Theorem use_after_teardown (self : session) (w : World S)
        (thrust torque power rpm : option float) (b : bool) (v : Z)
        (c : XRotor.Case) :
  is_open self w ->
  let closed := snd (fst (__del__ self w)) in
  let w' := snd (__del__ self w) in
  exec XRotor.print closed w' = (Raised AttributeError, w') /\
  exec (XRotor.set_print b) closed w' = (Raised AttributeError, w') /\
  exec XRotor.max_iter closed w' = (Raised AttributeError, w') /\
  exec (XRotor.set_max_iter v) closed w' = (Raised AttributeError, w') /\
  exec XRotor.performance closed w' = (Raised AttributeError, w') /\
  exec XRotor.station_conditions closed w' = (Raised AttributeError, w') /\
  exec XRotor.rms closed w' = (Raised AttributeError, w') /\
  exec XRotor.print_case closed w' = (Raised AttributeError, w') /\
  set_case c closed w' = (Raised AttributeError, set__case (Some c) closed, w') /\
  (if refused thrust torque power rpm then
     exists msg : string,
       exec (XRotor.operate thrust torque power rpm) closed w'
         = (Raised (ValueError msg), w')
   else
     exec (XRotor.operate thrust torque power rpm) closed w'
       = (Raised AttributeError, w')).
Proof.
  intros (dll & st & Hlib & _) closed w'.
  subst closed. rewrite (teardown_drops_lib self w dll Hlib).
  clearbody w'.
  repeat split; try reflexivity.
  destruct thrust, torque, power, rpm; cbn; try reflexivity;
    eexists; reflexivity.
Qed.

(** X10: when [__init__] raises after the temporary file was created, the
    temporary file, which did not exist before, is left behind and the
    object has its path.  Unless the exception is [AttributeError] (the
    canonical file is missing, or the loader refuses the copy), no module
    was mapped, the object has no library, and tearing it down raises
    [AttributeError] and deletes nothing.  With [AttributeError] (the
    library lacks an entry point the constructor looks up), the object
    holds the library, which stays mapped; off Windows, tearing the object
    down returns and deletes the temporary file, the library still
    mapped. *)
Theorem failed_construction_leaks (p ext : string) (w w' : World S)
        (e : exn) (self' : session) :
  fresh_names ->
  w_tmp_writable w = true ->
  __init__ p ext blank w = (Raised e, self', w') ->
  let name := mktemp ext (dom (w_files w)) in
  w_files w !! name = None /\
  is_Some (w_files w' !! name) /\
  _lib_path self' = Some name /\
  (e <> AttributeError ->
     _lib self' = None /\ w_modules w' = w_modules w /\
     __del__ self' w' = (Raised AttributeError, self', w')) /\
  (e = AttributeError ->
     (exists (h : Z) (missing : looked_up) (also : list string) (st : S),
        _lib self' = Some {| _name := name; _handle := h |} /\
        w_modules w' !! name = Some (Stub h missing also st)) /\
     (w_platform w = Posix ->
        exists w2 : World S,
          __del__ self' w' = (Returned tt, set__lib None self', w2) /\
          w_files w2 = w_files w /\ w_modules w2 = w_modules w')).
Proof.
  intros Hfresh Hwr Hinit name.
  assert (Hname : w_files w !! name = None).
  { apply not_elem_of_dom. apply Hfresh. }
  rewrite (init_table p ext w Hfresh), Hwr in Hinit. fold name in Hinit.
  split; [exact Hname|].
  assert (Hposix : forall (h : Z) (d : filedata) (m : gmap string (mapped S)),
            w_platform w = Posix ->
            exists w2 : World S,
              __del__ (set__lib (Some {| _name := name; _handle := h |})
                         (set__lib_path (Some name) blank))
                      (with_modules m (with_files (<[name := d]> (w_files w)) w))
              = (Returned tt,
                 set__lib None
                   (set__lib (Some {| _name := name; _handle := h |})
                      (set__lib_path (Some name) blank)), w2) /\
              w_files w2 = w_files w /\ w_modules w2 = m).
  { intros h d m Hpf. unfold __del__. cbn [_lib set__lib _handle].
    rewrite FreeLibrary_Posix by exact Hpf.
    cbn [_lib_path set__lib set__lib_path]. unfold os_remove. simpl.
    rewrite lookup_insert_eq, Hpf. eexists. split; [reflexivity|]. simpl.
    split; [apply delete_insert_id; exact Hname | reflexivity]. }
  destruct (w_files w !! p) as [d|] eqn:Hp.
  2:{ injection Hinit as <- <- <-. simpl. rewrite lookup_insert_eq.
      split; [eauto|]. split; [reflexivity|]. split.
      - intros _. repeat split.
      - destruct (decide (p = name)); discriminate. }
  destruct (w_modules w !! name) as [[h st0|h missing also st0]|] eqn:Hl.
  - discriminate.
  - injection Hinit as <- <- <-. simpl. rewrite lookup_insert_eq.
    split; [eauto|]. split; [reflexivity|]. split; [congruence|].
    intros _. split; [exists h, missing, also, st0; split; [reflexivity|exact Hl]|].
    intros Hpf.
    destruct (Hposix h d (w_modules w) Hpf) as (w2 & Hdel & Hf2 & Hm2).
    exists w2. split; [exact Hdel|]. split; assumption.
  - destruct d as [|missing also|]; [discriminate| |];
      injection Hinit as <- <- <-; simpl; rewrite lookup_insert_eq;
      (split; [eauto|]); (split; [reflexivity|]).
    + split; [congruence|]. intros _. split.
      * exists (new_handle (handles w)), missing, also, lib_loaded.
        split; [reflexivity|]. apply lookup_insert_eq.
      * intros Hpf. exact (Hposix _ _ _ Hpf).
    + split; [|discriminate]. intros _. repeat split.
Qed.

(** X11: teardown of a session whose temporary copy is already gone raises
    [FileNotFoundError]; the library reference is dropped all the same and
    the files are untouched.  Off Windows, and on Windows with a handle of
    more than 32 bits, the world is unchanged; on Windows with a handle
    that fits a positive C [long], the module has been unloaded before the
    deletion failed. *)
Theorem teardown_missing_copy (self : session) (w : World S)
        (dll : CDLL) (path : string) :
  _lib self = Some dll ->
  _lib_path self = Some path ->
  w_files w !! path = None ->
  fst (fst (__del__ self w)) = Raised FileNotFoundError /\
  snd (fst (__del__ self w)) = set__lib None self /\
  w_files (snd (__del__ self w)) = w_files w /\
  (w_platform w = Posix -> snd (__del__ self w) = w) /\
  (too_wide w (_handle dll) -> snd (__del__ self w) = w) /\
  (w_platform w = Windows -> 0 <= _handle dll < 2 ^ 31 ->
     snd (__del__ self w) = unload (_handle dll) w /\
     _handle dll ∉ handles (snd (__del__ self w))).
Proof.
  intros Hlib Hpath Hf.
  assert (Hdel : __del__ self w
                 = (Raised FileNotFoundError, set__lib None self,
                    snd (FreeLibrary (_handle dll) w))).
  { unfold __del__. rewrite Hlib.
    pose proof (FreeLibrary_world (_handle dll) w) as Hw1.
    destruct (FreeLibrary (_handle dll) w) as [freed w1]. simpl in Hw1.
    assert (Hf1 : w_files w1 !! path = None)
      by (destruct Hw1 as [-> | ->]; exact Hf).
    cbn [_lib_path set__lib]. rewrite Hpath. unfold os_remove.
    rewrite Hf1. reflexivity. }
  rewrite Hdel. cbn [fst snd].
  split; [reflexivity|]. split; [reflexivity|]. split; [|split; [|split]].
  - destruct (FreeLibrary_world (_handle dll) w) as [-> | ->]; reflexivity.
  - intros Hpf. rewrite FreeLibrary_Posix by exact Hpf. reflexivity.
  - intros Hwide. rewrite FreeLibrary_too_wide by exact Hwide. reflexivity.
  - intros Hpf Hh. destruct (FreeLibrary_fits _ w Hpf Hh) as [r ->].
    split; [reflexivity | apply unload_handles].
Qed.

End SessionLife.

Section RoundTrips.

Context {S : Type} {L : XRotorLib S} {O : Oracle}.

(** X12: constructing a session and tearing it down.  Where the platform
    frees the handle, the teardown returns and the files are exactly as
    they were before the construction; on Windows, when no module was
    mapped under the temporary name, the whole world is back to what it
    was; off Windows the module stays loaded.  On Windows with a handle of
    more than 32 bits the teardown raises [PermissionError] and both the
    temporary file and the module stay. *)
Theorem open_close_restores (p ext : string) (w w' : World S) (s : session)
        (dll : CDLL) :
  fresh_names -> fresh_handles ->
  new p ext w = (Returned s, w') ->
  _lib s = Some dll ->
  let name := mktemp ext (dom (w_files w)) in
  (frees w (_handle dll) ->
     fst (fst (__del__ s w')) = Returned tt /\
     w_files (snd (__del__ s w')) = w_files w /\
     (w_platform w = Windows -> w_modules w !! name = None ->
        snd (__del__ s w') = w) /\
     (w_platform w = Posix ->
        is_Some (w_loaded (snd (__del__ s w')) !! name))) /\
  (too_wide w (_handle dll) ->
     __del__ s w' = (Raised PermissionError, set__lib None s, w') /\
     w_files w' !! name = w_files w !! p /\
     is_Some (w_loaded w' !! name)).
Proof.
  intros Hnames Hhandles Hnew Hdll name.
  assert (Hname : w_files w !! name = None).
  { apply not_elem_of_dom. apply Hnames. }
  destruct (new_Returned p ext w w' s Hnames Hnew)
    as (d & h & st & _ & Hp & Hs & Hw' & Hh).
  fold name in Hs, Hw', Hh.
  assert (Hlib : _lib s = Some {| _name := name; _handle := h |})
    by (rewrite Hs; reflexivity).
  rewrite Hlib in Hdll. injection Hdll as <-. cbn [_handle].
  assert (Hpath : _lib_path s = Some name) by (rewrite Hs; reflexivity).
  assert (Hfile : w_files w' !! name = Some d)
    by (rewrite Hw'; simpl; apply lookup_insert_eq).
  assert (Hmod : w_modules w' !! name = Some (Solver h st))
    by (rewrite Hw'; simpl; apply lookup_insert_eq).
  assert (Hpf : w_platform w' = w_platform w) by (rewrite Hw'; reflexivity).
  split.
  - intros Hfrees.
    rewrite (teardown_open s w' {| _name := name; _handle := h |} st
               Hlib Hpath (ex_intro _ d Hfile)
               (proj2 (w_loaded_Some _ _ _ _) Hmod));
      [|destruct Hfrees as [Hposix|Hfits]; [left; congruence | right; exact Hfits]].
    cbn [fst snd]. unfold torn_down. rewrite Hpf. cbn [_name _handle].
    split; [reflexivity|]. split; [|split].
    + destruct (w_platform w); rewrite Hw'; simpl;
        apply delete_insert_id; exact Hname.
    + intros Hwin Hl. rewrite Hwin.
      destruct Hh as [(st0 & Hst0 & _) | (_ & _ & Hnewh & _)]; [congruence|].
      rewrite Hw'. unfold unload, with_files, with_modules. simpl.
      rewrite delete_insert_id by exact Hname.
      rewrite map_filter_insert_False by (simpl; tauto).
      rewrite delete_id by exact Hl.
      rewrite map_filter_id.
      * destruct w; reflexivity.
      * intros i m Hi. simpl. intros Hbad.
        apply (Hhandles (handles w)). rewrite <- Hnewh, <- Hbad.
        exact (elem_of_handles _ _ _ Hi).
    + intros Hposix. rewrite Hposix. exists (h, st).
      apply w_loaded_Some. simpl. exact Hmod.
  - intros [Hwin Hwide].
    rewrite (teardown_stuck s w' {| _name := name; _handle := h |}
               Hlib Hpath (ex_intro _ d Hfile) (ex_intro _ _ Hmod));
      [|split; [congruence | exact Hwide]].
    split; [reflexivity|]. split; [congruence|].
    exists (h, st). apply w_loaded_Some. exact Hmod.
Qed.

(** X15: construction runs [init] exactly once on the session's module: a
    module newly loaded under the temporary name gets a new handle and the
    state [init] leaves from the freshly loaded one; a module still loaded
    under that name keeps its handle and gets [init] run on its old
    state. *)
Theorem construction_initialises (p ext : string) (w w' : World S)
        (s : session) :
  fresh_names ->
  new p ext w = (Returned s, w') ->
  let name := mktemp ext (dom (w_files w)) in
  w_loaded w' !! name
    = Some (match w_loaded w !! name with
            | Some (h0, st0) => (h0, snd (lib_call Lib.init st0))
            | None => (new_handle (handles w),
                       snd (lib_call Lib.init lib_loaded))
            end) /\
  forall path : string, path <> name ->
    w_loaded w' !! path = w_loaded w !! path.
Proof.
  intros Hnames Hnew name.
  destruct (new_Returned p ext w w' s Hnames Hnew)
    as (d & h & st & _ & _ & _ & -> & Hh).
  fold name in Hh |- *. rewrite w_loaded_insert.
  change (omap solver_part (w_modules w)) with (w_loaded w). split.
  - rewrite lookup_insert_eq.
    destruct Hh as [(st0 & Hl & ->) | (Hl & _ & -> & ->)].
    + apply w_loaded_Some in Hl. rewrite Hl. reflexivity.
    + rewrite (w_loaded_None _ _ Hl). reflexivity.
  - intros path Hne. apply lookup_insert_ne. congruence.
Qed.

(** X13: that no two loaded modules share a handle is an invariant of the
    session life cycle: it holds when nothing is loaded, and a successful
    construction, any method call and any teardown preserve it. *)
Theorem distinct_handles_invariant (w : World S) :
  fresh_names -> fresh_handles ->
  (w_loaded w = ∅ -> distinct_handles w) /\
  (distinct_handles w ->
   (forall (p ext : string) (s : session) (w' : World S),
      new p ext w = (Returned s, w') -> distinct_handles w') /\
   (forall (A : Type) (q : prog A) (self : session),
      distinct_handles (snd (exec q self w))) /\
   (forall self : session, distinct_handles (snd (__del__ self w)))).
Proof.
  intros Hnames Hhandles. split.
  - intros Hempty p1 p2 h st1 st2 H1. rewrite Hempty, lookup_empty in H1.
    discriminate.
  - intros Hinj. repeat split.
    + intros p ext s w' Hnew.
      exact (distinct_handles_new p ext w w' s Hnames Hhandles Hinj Hnew).
    + intros A q self. apply distinct_handles_exec. exact Hinj.
    + intros self. apply distinct_handles_teardown. exact Hinj.
Qed.

(** X14: the [case] setter records the case on the object first, so the
    [case] property returns it whatever happens next, and leaves the other
    attributes alone; on an open session it then makes the one [set_case]
    call with the eighteen arguments, returns, and leaves the session open
    and the files untouched. *)
Theorem case_setter_records (c : XRotor.Case) (self : session) (w : World S) :
  case (snd (fst (set_case c self w))) = Some c /\
  _lib (snd (fst (set_case c self w))) = _lib self /\
  _lib_path (snd (fst (set_case c self w))) = _lib_path self /\
  (is_open self w ->
   fst (fst (set_case c self w)) = Returned tt /\
   is_open (snd (fst (set_case c self w))) (snd (set_case c self w)) /\
   w_files (snd (set_case c self w)) = w_files w /\
   forall st : S,
     snd (fst (run (XRotor.push_case c) st)) = snd (lib_call (Lib.set_case (XRotor.case_args c)) st) /\
     snd (run (XRotor.push_case c) st) = [Lib.set_case (XRotor.case_args c)]).
Proof.
  unfold set_case.
  destruct (exec (XRotor.push_case c) (set__case (Some c) self) w)
    as [r w1] eqn:Hexec.
  cbn [fst snd].
  split; [reflexivity|]. split; [reflexivity|]. split; [reflexivity|].
  intros (dll & st & Hlib & Hpath & Hf & Hl).
  apply w_loaded_Some in Hl.
  rewrite (exec_solver _ (set__case (Some c) self) w dll st Hlib Hl) in Hexec.
  assert (Hrun : forall st0 : S,
            run (XRotor.push_case c) st0
            = (Returned tt,
               snd (lib_call (Lib.set_case (XRotor.case_args c)) st0),
               [Lib.set_case (XRotor.case_args c)])).
  { intros st0. unfold XRotor.push_case, call. simpl.
    destruct (lib_call (Lib.set_case (XRotor.case_args c)) st0) as [z st1].
    reflexivity. }
  rewrite Hrun in Hexec. simpl in Hexec. injection Hexec as <- <-.
  split; [reflexivity|]. split; [|split].
  - exists dll, (snd (lib_call (Lib.set_case (XRotor.case_args c)) st)).
    split; [exact Hlib|]. split; [exact Hpath|]. split; [exact Hf|].
    apply w_loaded_Some. simpl. apply lookup_insert_eq.
  - reflexivity.
  - intros st0. rewrite Hrun. split; reflexivity.
Qed.

End RoundTrips.
(** ** A row-major matrix in the case push *)

Lemma length_indicesF (shape : list nat) :
  length (indicesF shape) = fold_right Nat.mul 1%nat shape.
Proof.
  induction shape as [|d shape IH]; [reflexivity|].
  cbn [indicesF fold_right].
  rewrite (length_flat_map_block _ d) by (intros; apply length_index_block).
  rewrite IH. reflexivity.
Qed.

(** X7: an array the case holds as a row-major matrix of [rows] by [cols]
    is passed as a buffer of [rows * cols] elements in which element
    [(i, j)], found at [j + cols * i] in the case's buffer, sits at
    [i + rows * j]. *)
Theorem row_major_matrix_is_transposed (a : ndarray) (rows cols i j : nat) :
  nd_order a = C_order -> nd_shape a = [rows; cols] ->
  (i < rows)%nat -> (j < cols)%nat ->
  length (nd_mem (asfortranarray a)) = (rows * cols)%nat /\
  nth (i + rows * j) (nd_mem (asfortranarray a)) 0%float
    = nth (j + cols * i) (nd_mem a) 0%float.
Proof.
  intros Ho Hs Hi Hj. split.
  - assert (Hlen : length (nd_mem (asfortranarray a))
                   = length (indicesF (nd_shape a))).
    { unfold asfortranarray. rewrite Ho. cbn [nd_mem]. apply length_map. }
    rewrite Hlen, length_indicesF, Hs. simpl. lia.
  - destruct (asfortranarray_layout a) as (_ & _ & _ & Hl).
    specialize (Hl [i; j]). rewrite Hs in Hl.
    assert (Hv : valid_index [rows; cols] [i; j]).
    { repeat constructor; assumption. }
    specialize (Hl Hv). simpl in Hl.
    replace (i + rows * (j + cols * 0))%nat with (i + rows * j)%nat in Hl by lia.
    rewrite Hl. unfold nd_get, nd_offset. rewrite Ho, Hs.
    unfold offsetC. simpl.
    replace (j + cols * (i + rows * 0))%nat with (j + cols * i)%nat by lia.
    reflexivity.
Qed.

(** X7 on the geometry array of the sample case: element (1, 2). *)
Lemma row_major_matrix_witness :
  length (nd_mem (asfortranarray
            (XRotor.geomdata (XRotor.blade (XRotor.disk Sample.a_case)))))
    = 6%nat /\
  nth 5 (nd_mem (asfortranarray
           (XRotor.geomdata (XRotor.blade (XRotor.disk Sample.a_case)))))
      0%float
    = 6%float.
Proof.
  exact (row_major_matrix_is_transposed
           (XRotor.geomdata (XRotor.blade (XRotor.disk Sample.a_case)))
           2 3 1 2 eq_refl eq_refl
           (le_n 2) (le_n 3)).
Defined.

(** ** The session properties on the sample machine *)

(** X8: a thrust solve on the first sample session. *)
Lemma method_call_frame_witness :
  let s := Sample.session_of (Sample.first_open Posix 0) in
  let w := snd (Sample.first_open Posix 0) in
  let q := XRotor.operate (Some 500%float) None None None in
  fst (exec (L := Sample.library 0) q s w) = Returned (XRotor.Rms 0.25%float) /\
  w_files (snd (exec (L := Sample.library 0) q s w)) = w_files w /\
  is_open s (snd (exec (L := Sample.library 0) q s w)).
Proof.
  intros s w q.
  destruct (method_call_frame (L := Sample.library 0) q s w
              (first_open_is_open Posix 0))
    as (dll & st & _ & _ & _ & _ & Hf & _ & _ & _ & Ho).
  split; [vm_compute; reflexivity|]. split; assumption.
Defined.

(** X9: the residual read on the first sample session after its teardown. *)
Lemma use_after_teardown_witness :
  let s := Sample.session_of (Sample.first_open Posix 0) in
  let w := snd (Sample.first_open Posix 0) in
  exec (L := Sample.library 0) XRotor.rms (snd (fst (__del__ s w)))
       (snd (__del__ s w))
    = (Raised AttributeError, snd (__del__ s w)).
Proof.
  intros s w.
  pose proof (use_after_teardown (L := Sample.library 0) s w
                None None None None true 0 Sample.a_case
                (first_open_is_open Posix 0)) as H.
  cbv zeta in H.
  exact (proj1 (proj2 (proj2 (proj2 (proj2 (proj2 (proj2 H))))))).
Defined.

(** X10: construction from a canonical path that does not exist. *)
Lemma failed_construction_witness :
  let r := __init__ (L := Sample.library 0) (O := Sample.oracle)
             "/opt/xrotor/missing.so" ".so" blank (Sample.world Posix) in
  fst (fst r) = Raised FileNotFoundError /\
  is_Some (w_files (snd r) !! "/tmp/tmpxxxxxxxxxxxxxxxxxxxxxxxxx.so") /\
  __del__ (snd (fst r)) (snd r) = (Raised AttributeError, snd (fst r), snd r).
Proof.
  intros r.
  assert (Hr : r = (Raised FileNotFoundError, snd (fst r), snd r))
    by (vm_compute; reflexivity).
  destruct (failed_construction_leaks (L := Sample.library 0)
              (O := Sample.oracle) "/opt/xrotor/missing.so" ".so"
              (Sample.world Posix) (snd r) FileNotFoundError (snd (fst r))
              sample_fresh_names eq_refl Hr)
    as (_ & Hfile & _ & Hplain & _).
  split; [vm_compute; reflexivity|]. split; [exact Hfile|].
  apply Hplain. discriminate.
Defined.

(** X11: teardown of a session whose copy was deleted behind its back. *)
Lemma teardown_missing_copy_witness :
  let s := {| _lib := Some {| _name := "/tmp/gone.so"; _handle := 7 |};
              _lib_path := Some "/tmp/gone.so"; _case := None |} in
  fst (fst (__del__ s (Sample.world Posix))) = Raised FileNotFoundError /\
  snd (__del__ s (Sample.world Posix)) = Sample.world Posix.
Proof.
  intros s.
  destruct (teardown_missing_copy s (Sample.world Posix)
              {| _name := "/tmp/gone.so"; _handle := 7 |} "/tmp/gone.so"
              eq_refl eq_refl eq_refl)
    as (Hr & _ & _ & Hw & _).
  split; [exact Hr | exact (Hw eq_refl)].
Defined.

(** X12: a session constructed and torn down on the Windows sample
    machine, where its handle is 0. *)
Lemma open_close_witness :
  let s := Sample.session_of (Sample.first_open Windows 0) in
  let w' := snd (Sample.first_open Windows 0) in
  fst (fst (__del__ s w')) = Returned tt /\
  snd (__del__ s w') = Sample.world Windows.
Proof.
  intros s w'.
  assert (Hnew : new (L := Sample.library 0) (O := Sample.oracle)
                   Sample.canonical (lib_ext Sample.canonical)
                   (Sample.world Windows) = (Returned s, w'))
    by (vm_compute; reflexivity).
  assert (Hlib : _lib s
                 = Some {| _name := "/tmp/tmpxxxxxxxxxxxxxxxxxxxxxxxxx.so";
                           _handle := 0 |})
    by (vm_compute; reflexivity).
  destruct (open_close_restores (L := Sample.library 0) (O := Sample.oracle)
              Sample.canonical (lib_ext Sample.canonical)
              (Sample.world Windows) w' s _
              sample_fresh_names sample_fresh_handles Hnew Hlib)
    as [Hfrees _].
  destruct Hfrees as (Hr & _ & Hw & _); [right; simpl; lia|].
  split; [exact Hr | exact (Hw eq_refl eq_refl)].
Defined.

(** X13: the invariant on the sample machine, where nothing is loaded. *)
Lemma distinct_handles_witness :
  distinct_handles (Sample.world Posix) /\
  distinct_handles (snd (Sample.first_open Posix 0)).
Proof.
  destruct (distinct_handles_invariant (L := Sample.library 0)
              (O := Sample.oracle) (Sample.world Posix)
              sample_fresh_names sample_fresh_handles) as [H0 Hstep].
  pose proof (H0 eq_refl) as Hw.
  split; [exact Hw|].
  destruct (Hstep Hw) as (Hnew & _ & _).
  apply (Hnew Sample.canonical (lib_ext Sample.canonical)
           (Sample.session_of (Sample.first_open Posix 0))).
  vm_compute. reflexivity.
Defined.

(** X15: the module of the first sample session after construction. *)
Lemma construction_initialises_witness :
  w_loaded (snd (Sample.first_open Posix 0))
    !! "/tmp/tmpxxxxxxxxxxxxxxxxxxxxxxxxx.so"
  = Some (0, Sample.fresh_state).
Proof.
  assert (Hnew : new (L := Sample.library 0) (O := Sample.oracle)
                   Sample.canonical (lib_ext Sample.canonical)
                   (Sample.world Posix)
                 = (Returned (Sample.session_of (Sample.first_open Posix 0)),
                    snd (Sample.first_open Posix 0)))
    by (vm_compute; reflexivity).
  exact (proj1 (construction_initialises (L := Sample.library 0)
                  (O := Sample.oracle) _ _ _ _ _ sample_fresh_names Hnew)).
Defined.
